(** * App Review Analyzer: a shallow embedding of [Reviews/app.py]

    The program looks an application up in the iTunes search API, fetches
    its most recent reviews from the customer-review RSS feed (as JSON),
    formats them into one transcript and sends two chat-completion requests.

    The development has three layers:
    - [Py]: the fragment of the Python runtime the program relies on
      (JSON values, [dict.get], subscripting, slicing, [int], [str],
      truthiness, [str.strip]), with exceptions as an error type;
    - [Run]: a writer-style monad recording the outside calls of a run
      (HTTP requests, completion requests, Streamlit output);
    - [App]: the three functions of [app.py] and the button handler. *)

From Stdlib Require Import ZArith Ascii String List Lia.
From stdpp Require Import list strings pretty.

Set Warnings "-register-all".

(* ===================================================================== *)
(** ** The Python values and built-ins used by the program *)
(* ===================================================================== *)

Module Py.

(** Exception classes the program can raise; the message is not kept. *)
Inductive exn : Type :=
| AttributeError
| KeyError
| IndexError
| TypeError
| ValueError
| OverflowError
| HTTPError          (* requests: raise_for_status *)
| ConnectionError    (* requests: transport failure *)
| JSONDecodeError    (* requests: body is not JSON *)
| OpenAIError.       (* openai: any API-level failure *)

Inductive result (A : Type) : Type :=
| Ok (a : A)
| Err (e : exn).
Arguments Ok {A} a.
Arguments Err {A} e.

Definition rbind {A B} (m : result A) (f : A -> result B) : result B :=
  match m with
  | Ok a => f a
  | Err e => Err e
  end.

Declare Scope py_scope.
Delimit Scope py_scope with py.
Notation "'let*' x ':=' m 'in' k" := (rbind m (fun x => k))
  (at level 10, x name, m at level 100, k at level 200) : py_scope.

(** A Python float, by what the program can observe of it: [int(f)],
    [bool(f)] and [repr(f)].  A finite float carries its truncation toward
    zero, whether it is non-zero, and its repr, which is never empty and is
    therefore kept as first character and rest. *)
Inductive pyfloat : Type :=
| FNan
| FInf (negative : bool)
| FFin (trunc : Z) (nonzero : bool) (repr_head : ascii) (repr_tail : string).

(** Values as [json.loads] builds them.  A string is a sequence of
    characters, each a code point below 256; a dict is the list of its
    items in insertion order, with distinct keys. *)
Inductive pyval : Type :=
| PNone
| PBool (b : bool)
| PInt (z : Z)
| PFloat (f : pyfloat)
| PStr (s : string)
| PList (l : list pyval)
| PDict (d : list (string * pyval)).

Definition newline : string := String "010"%char EmptyString.
Definition dquote : ascii := "034"%char.
Definition squote : ascii := "039"%char.
Definition backslash : ascii := "092"%char.

(** *** Dictionaries *)

Fixpoint dict_lookup (k : string) (d : list (string * pyval)) : option pyval :=
  match d with
  | [] => None
  | (k', v) :: d' => if String.eqb k k' then Some v else dict_lookup k d'
  end.

(** [v.get(k, default)] *)
Definition get_method (v : pyval) (k : string) (default : pyval) : result pyval :=
  match v with
  | PDict d => Ok (match dict_lookup k d with Some x => x | None => default end)
  | _ => Err AttributeError
  end.

(** [v[k]] with a string key *)
Definition subscript (v : pyval) (k : string) : result pyval :=
  match v with
  | PDict d => match dict_lookup k d with Some x => Ok x | None => Err KeyError end
  | _ => Err TypeError
  end.

(** [v[i]] with an integer index *)
Definition index_list {A} (l : list A) (i : Z) : option A :=
  let n := Z.of_nat (length l) in
  let j := if (i <? 0)%Z then (i + n)%Z else i in
  if (j <? 0)%Z then None else nth_error l (Z.to_nat j).

Definition subscript_int (v : pyval) (i : Z) : result pyval :=
  match v with
  | PList l => match index_list l i with Some x => Ok x | None => Err IndexError end
  | PStr s =>
      match index_list (list_ascii_of_string s) i with
      | Some c => Ok (PStr (String c EmptyString))
      | None => Err IndexError
      end
  | PDict _ => Err KeyError     (* JSON keys are strings, never an int *)
  | _ => Err TypeError
  end.

(** *** Slicing: [v[start:stop]] *)

Definition clamp_index (n i : Z) : Z :=
  if (i <? 0)%Z then Z.max (i + n) 0 else Z.min i n.

Definition slice_list {A} (l : list A) (start stop : Z) : list A :=
  let n := Z.of_nat (length l) in
  let lo := clamp_index n start in
  let hi := clamp_index n stop in
  take (Z.to_nat (hi - lo)) (drop (Z.to_nat lo) l).

(** Slicing a dict is a [TypeError] (unhashable slice) up to Python 3.11
    and a [KeyError] from 3.12 on; a fault either way. *)
Definition py_slice (v : pyval) (start stop : Z) : result pyval :=
  match v with
  | PList l => Ok (PList (slice_list l start stop))
  | PStr s =>
      Ok (PStr (string_of_list_ascii (slice_list (list_ascii_of_string s) start stop)))
  | _ => Err TypeError
  end.

(** The elements a [for] loop visits. *)
Definition py_iter (v : pyval) : result (list pyval) :=
  match v with
  | PList l => Ok l
  | PStr s => Ok (map (fun c => PStr (String c EmptyString)) (list_ascii_of_string s))
  | PDict d => Ok (map (fun kv => PStr (fst kv)) d)
  | _ => Err TypeError
  end.

(** *** Truthiness: [bool(v)] *)

Definition float_truthy (f : pyfloat) : bool :=
  match f with
  | FFin _ nz _ _ => nz
  | _ => true
  end.

Definition truthy (v : pyval) : bool :=
  match v with
  | PNone => false
  | PBool b => b
  | PInt z => negb (z =? 0)%Z
  | PFloat f => float_truthy f
  | PStr s => negb (String.eqb s EmptyString)
  | PList l => match l with [] => false | _ => true end
  | PDict d => match d with [] => false | _ => true end
  end.

(** *** [int(v)] *)

Definition code (c : ascii) : nat := nat_of_ascii c.

(** Whitespace skipped by [int] around a literal: the ASCII blanks of the
    C locale, and the non-ASCII Unicode spaces (NEL and NBSP below 256). *)
Definition is_int_space (c : ascii) : bool :=
  let n := code c in
  ((9 <=? n) && (n <=? 13)) || (n =? 32) || (n =? 133) || (n =? 160).

(** Whitespace of [str.isspace], used by [str.strip]. *)
Definition is_space (c : ascii) : bool :=
  let n := code c in
  ((9 <=? n) && (n <=? 13)) || ((28 <=? n) && (n <=? 32)) || (n =? 133) || (n =? 160).

Definition digit_value (c : ascii) : option Z :=
  let n := code c in
  if (48 <=? n) && (n <=? 57) then Some (Z.of_nat (n - 48)) else None.

Fixpoint drop_while {A} (p : A -> bool) (l : list A) : list A :=
  match l with
  | [] => []
  | x :: l' => if p x then drop_while p l' else l
  end.

Definition strip_list {A} (p : A -> bool) (l : list A) : list A :=
  rev (drop_while p (rev (drop_while p l))).

(** Digits with single underscores between them;
    [after_digit] tells whether the previous character was a digit. *)
Fixpoint parse_digits (acc : Z) (after_digit : bool) (cs : list ascii) : option Z :=
  match cs with
  | [] => if after_digit then Some acc else None
  | c :: cs' =>
      if Ascii.eqb c "_"%char then
        if after_digit then parse_digits acc false cs' else None
      else
        match digit_value c with
        | Some d => parse_digits (10 * acc + d)%Z true cs'
        | None => None
        end
  end.

Definition parse_int (s : string) : option Z :=
  match strip_list is_int_space (list_ascii_of_string s) with
  | c :: cs =>
      if Ascii.eqb c "-"%char then Z.opp <$> parse_digits 0 false cs
      else if Ascii.eqb c "+"%char then parse_digits 0 false cs
      else parse_digits 0 false (c :: cs)
  | [] => None
  end.

(** [int(v)]; integers are unbounded, and the limit newer interpreters put
    on the number of digits of a literal is not modelled. *)
Definition py_int (v : pyval) : result Z :=
  match v with
  | PInt z => Ok z
  | PBool b => Ok (if b then 1 else 0)%Z
  | PFloat FNan => Err ValueError
  | PFloat (FInf _) => Err OverflowError
  | PFloat (FFin t _ _ _) => Ok t
  | PStr s => match parse_int s with Some z => Ok z | None => Err ValueError end
  | PNone | PList _ | PDict _ => Err TypeError
  end.

(** *** [repr(v)] and [str(v)] *)

Definition hex_digit (n : nat) : ascii :=
  match n with
  | 0 => "0" | 1 => "1" | 2 => "2" | 3 => "3" | 4 => "4" | 5 => "5"
  | 6 => "6" | 7 => "7" | 8 => "8" | 9 => "9" | 10 => "a" | 11 => "b"
  | 12 => "c" | 13 => "d" | 14 => "e" | _ => "f"
  end%char.

Definition hex_escape (c : ascii) : string :=
  let n := code c in
  String backslash (String "x" (String (hex_digit (n / 16)) (String (hex_digit (n mod 16)) EmptyString))).

(** [str.isprintable] on code points below 256. *)
Definition is_printable (c : ascii) : bool :=
  let n := code c in
  ((32 <=? n) && (n <=? 126)) || ((161 <=? n) && negb (n =? 173)).

Definition escape_char (quote c : ascii) : string :=
  if Ascii.eqb c quote || Ascii.eqb c backslash then String backslash (String c EmptyString)
  else if Ascii.eqb c "009"%char then String backslash "t"
  else if Ascii.eqb c "010"%char then String backslash "n"
  else if Ascii.eqb c "013"%char then String backslash "r"
  else if is_printable c then String c EmptyString
  else hex_escape c.

Definition has_char (c : ascii) (s : string) : bool :=
  existsb (Ascii.eqb c) (list_ascii_of_string s).

Definition str_repr (s : string) : string :=
  let quote := if has_char squote s && negb (has_char dquote s) then dquote else squote in
  String quote
    (String.concat EmptyString (map (escape_char quote) (list_ascii_of_string s))
     +:+ String quote EmptyString).

Definition float_repr (f : pyfloat) : string :=
  match f with
  | FNan => "nan"
  | FInf false => "inf"
  | FInf true => "-inf"
  | FFin _ _ c s => String c s
  end.

Fixpoint py_repr (v : pyval) : string :=
  match v with
  | PNone => "None"
  | PBool true => "True"
  | PBool false => "False"
  | PInt z => pretty z
  | PFloat f => float_repr f
  | PStr s => str_repr s
  | PList l => "[" +:+ String.concat ", " (map py_repr l) +:+ "]"
  | PDict d =>
      "{" +:+ String.concat ", "
                (map (fun '(k, x) => str_repr k +:+ ": " +:+ py_repr x) d) +:+ "}"
  end.

(** [str(v)], which is also what an f-string field [{v}] inserts. *)
Definition py_str (v : pyval) : string :=
  match v with
  | PStr s => s
  | _ => py_repr v
  end.

(** [s.strip()] *)
Definition py_strip (s : string) : string :=
  string_of_list_ascii (strip_list is_space (list_ascii_of_string s)).

End Py.

(* ===================================================================== *)
(** ** Runs: the outside world and the calls a run makes to it *)
(* ===================================================================== *)

Module Run.
Import Py.

(** One [openai.ChatCompletion.create] call.  [messages] lists the
    (role, content) pairs in order. *)
Record chat_request : Type := ChatRequest {
  model : string;
  messages : list (string * string);
  temperature : pyfloat;
  max_tokens : Z
}.

(** What the program reads of a completion response: the
    [message.content] of each choice, in order. *)
Record chat_response : Type := ChatResponse {
  choices : list pyval
}.

(** What [requests.get] gives: a transport failure, or a response with its
    status code and its body ([None] when the body is not JSON). *)
Inductive http_reply : Type :=
| NoReply
| Reply (status : Z) (body : option pyval).

(** The services the program talks to.  No request is sent twice within
    one run, so a function of the request loses no behaviour. *)
Record world : Type := World {
  http_get : string -> list (string * pyval) -> http_reply;
  chat_create : chat_request -> result chat_response
}.

(** Streamlit output calls. *)
Inductive ui_call : Type :=
| StSpinner (text : string)
| StError (text : string)
| StSuccess (text : string)
| StWrite (text : string)
| StSubheader (text : string)
| StMarkdown (text : string).

Inductive event : Type :=
| HttpGet (url : string) (params : list (string * pyval))
| ChatCreate (req : chat_request)
| Ui (c : ui_call).

(** A computation returns a value or raises, and leaves the list of the
    calls it made, oldest first. *)
Definition M (A : Type) : Type := result A * list event.

Definition ret {A} (a : A) : M A := (Ok a, []).
Definition raise {A} (e : exn) : M A := (Err e, []).
Definition lift {A} (r : result A) : M A := (r, []).
Definition emit (ev : event) : M unit := (Ok tt, [ev]).

Definition bind {A B} (m : M A) (f : A -> M B) : M B :=
  match m with
  | (Ok a, t) => let '(r, t') := f a in (r, t ++ t')
  | (Err e, t) => (Err e, t)
  end.

Definition outcome {A} (m : M A) : result A := fst m.
Definition trace {A} (m : M A) : list event := snd m.

Declare Scope run_scope.
Delimit Scope run_scope with run.
Notation "'let!' x ':=' m 'in' k" := (bind m (fun x => k))
  (at level 10, x name, m at level 100, k at level 200) : run_scope.
Notation "m ';;' k" := (bind m (fun _ => k))
  (at level 100, k at level 200, right associativity) : run_scope.

(** [requests.get(url, params=params)] *)
Definition requests_get (w : world) (url : string) (params : list (string * pyval))
  : M http_reply :=
  (emit (HttpGet url params) ;;
   match http_get w url params with
   | NoReply => raise ConnectionError
   | r => ret r
   end)%run.

(** [r.raise_for_status()]: client and server error codes raise. *)
Definition raise_for_status (r : http_reply) : result unit :=
  match r with
  | NoReply => Err ConnectionError
  | Reply status _ =>
      if (400 <=? status)%Z && (status <? 600)%Z then Err HTTPError else Ok tt
  end.

(** [r.json()] *)
Definition response_json (r : http_reply) : result pyval :=
  match r with
  | Reply _ (Some v) => Ok v
  | Reply _ None => Err JSONDecodeError
  | NoReply => Err ConnectionError
  end.

(** [openai.ChatCompletion.create(...)] *)
Definition chat_completion_create (w : world) (req : chat_request) : M chat_response :=
  (emit (ChatCreate req) ;; lift (chat_create w req))%run.

(** [resp.choices[0].message.content.strip()] *)
Definition first_choice_stripped (resp : chat_response) : result string :=
  match choices resp with
  | [] => Err IndexError
  | PStr s :: _ => Ok (py_strip s)
  | _ :: _ => Err AttributeError
  end.

End Run.

(* ===================================================================== *)
(** ** The program *)
(* ===================================================================== *)

Module App.
Import Py Run.
Local Open Scope string_scope.

(** A review as [fetch_reviews] builds it: a dict with exactly the keys
    [title], [content] and [rating], the last always an [int]. *)
Record review : Type := Review {
  title : pyval;
  content : pyval;
  rating : Z
}.

(** *** [search_app] *)

Definition search_url : string := "https://itunes.apple.com/search".

Definition search_params (app_name : string) : list (string * pyval) :=
  [("term", PStr app_name); ("entity", PStr "software"); ("limit", PInt 1)].

Definition search_app (w : world) (app_name : string) : M (pyval * pyval) :=
  (let! r := requests_get w search_url (search_params app_name) in
   lift (raise_for_status r) ;;
   let! body := lift (response_json r) in
   let! results := lift (get_method body "results" (PList [])) in
   if negb (truthy results) then ret (PNone, PNone)
   else
     let! app := lift (subscript_int results 0) in
     let! track_id := lift (get_method app "trackId" PNone) in
     let! track_name := lift (get_method app "trackName" PNone) in
     ret (PStr (py_str track_id), track_name))%run.

(** *** [fetch_reviews] *)

Definition rss_url (country app_id : pyval) : string :=
  "https://itunes.apple.com/" +:+ py_str country +:+ "/rss/customerreviews/id="
  +:+ py_str app_id +:+ "/sortBy=mostRecent/json".

(** The dict built in the loop body, its three values evaluated in order. *)
Definition review_of_entry (e : pyval) : result review :=
  (let* t := subscript e "title" in
   let* t_label := subscript t "label" in
   let* c := subscript e "content" in
   let* c_label := subscript c "label" in
   let* r := get_method e "im:rating" (PDict []) in
   let* r_label := get_method r "label" (PInt 0) in
   let* n := py_int r_label in
   Ok (Review t_label c_label n))%py.

(** The loop: the first entry that raises ends the call. *)
Fixpoint reviews_of_entries (es : list pyval) : result (list review) :=
  match es with
  | [] => Ok []
  | e :: es' =>
      (let* r := review_of_entry e in
       let* rs := reviews_of_entries es' in
       Ok (r :: rs))%py
  end.

(** [resp.json().get("feed", {}).get("entry", [])[1:limit+1]] *)
Definition feed_entries (body : pyval) (limit : Z) : result pyval :=
  (let* feed := get_method body "feed" (PDict []) in
   let* entry := get_method feed "entry" (PList []) in
   py_slice entry 1 (limit + 1))%py.

Definition fetch_reviews (w : world) (app_id country : pyval) (limit : Z)
  : M (list review) :=
  (let! resp := requests_get w (rss_url country app_id) [] in
   lift (raise_for_status resp) ;;
   let! body := lift (response_json resp) in
   let! entries := lift (feed_entries body limit) in
   let! es := lift (py_iter entries) in
   lift (reviews_of_entries es))%run.

(** *** [analyze_reviews_openai] *)

(** One line of the text block: [f"{i+1}. [{rating}/5] {title} - {content}"] *)
Definition review_line (i : nat) (r : review) : string :=
  pretty (Z.of_nat i + 1)%Z +:+ ". [" +:+ pretty (rating r) +:+ "/5] "
  +:+ py_str (title r) +:+ " - " +:+ py_str (content r).

Definition transcript (reviews : list review) : string :=
  String.concat (newline +:+ newline) (imap review_line reviews).

Definition system_message : string * string :=
  ("system", "You are a product growth analyst.").

Definition zero_temperature : pyfloat := FFin 0 false "0" ".0".

Definition theme_prompt (text : string) : string :=
  "Summarize the following user reviews:" +:+ newline +:+ newline
  +:+ text +:+ newline +:+ newline
  +:+ "Extract 3 key positive themes, 3 key pain points, and an overall sentiment (positive/negative/mixed).".

Definition improve_prompt (text : string) : string :=
  "Based on these user reviews, list 3 specific, high-impact feature or UX improvements the product team should prioritize:"
  +:+ newline +:+ newline
  +:+ text +:+ newline +:+ newline
  +:+ "Provide each improvement as a short actionable bullet.".

Definition theme_request (text : string) : chat_request :=
  ChatRequest "gpt-4" [system_message; ("user", theme_prompt text)] zero_temperature 400.

Definition improve_request (text : string) : chat_request :=
  ChatRequest "gpt-4" [system_message; ("user", improve_prompt text)] zero_temperature 200.

Definition analyze_reviews_openai (w : world) (reviews : list review)
  : M (string * string) :=
  (let text := transcript reviews in
   let! theme_resp := chat_completion_create w (theme_request text) in
   let! summary := lift (first_choice_stripped theme_resp) in
   let! imp_resp := chat_completion_create w (improve_request text) in
   let! improvements := lift (first_choice_stripped imp_resp) in
   ret (summary, improvements))%run.

(** *** The button handler: the body of [if st.button("Analyze Reviews"):]

    [app_name] and [limit] are the values of the text input and of the
    slider.  The emoji that starts each subheader is outside the modelled
    alphabet and is left out of the heading text. *)

Definition no_app_message (app_name : string) : string :=
  "No app found matching '" +:+ app_name +:+ "'. Please check the name and try again.".

Definition analyze_button (w : world) (app_name : string) (limit : Z) : M unit :=
  (emit (Ui (StSpinner "Searching for app...")) ;;
   let! found := search_app w app_name in
   let '(app_id, found_name) := found in
   if negb (truthy app_id) then
     emit (Ui (StError (no_app_message app_name)))
   else
     emit (Ui (StSuccess ("Found " +:+ py_str found_name +:+ " (ID: " +:+ py_str app_id +:+ ")"))) ;;
     emit (Ui (StSpinner "Fetching reviews...")) ;;
     let! reviews := fetch_reviews w app_id (PStr "us") limit in
     emit (Ui (StWrite ("Fetched " +:+ pretty (length reviews) +:+ " reviews."))) ;;
     emit (Ui (StSpinner "Analyzing with OpenAI...")) ;;
     let! analysis := analyze_reviews_openai w reviews in
     let '(summary, improvements) := analysis in
     emit (Ui (StSubheader " Themes & Sentiment Summary")) ;;
     emit (Ui (StMarkdown summary)) ;;
     emit (Ui (StSubheader " Recommended Improvements")) ;;
     emit (Ui (StMarkdown improvements)))%run.

(** The review-fetch step was reached: some request went to the feed. *)
Definition is_feed_request (ev : event) : Prop :=
  exists country app_id, ev = HttpGet (rss_url country app_id) [].

Definition is_error_display (ev : event) : Prop :=
  exists text, ev = Ui (StError text).

End App.

(* ===================================================================== *)
(** ** The script around the handler *)
(* ===================================================================== *)

Module Script.
Import Py Run App.
Local Open Scope string_scope.

(** The page's widgets; the values they return are inputs of a run. *)
Inductive widget : Type :=
| StSetPageConfig (page_title layout : string)
| StTitle (text : string)
| StTextInput (label : string)
| StSlider (label : string) (min_value max_value value step : Z)
| StButton (label : string).

Inductive script_event : Type :=
| Widget (c : widget)
| Step (ev : event).

(** What one run of the script reads: [os.getenv("OPENAI_API_KEY")], the
    text typed, the slider's value and whether the button was clicked. *)
Record inputs : Type := Inputs {
  env_key : option string;
  typed_name : string;
  slider_value : Z;
  button_clicked : bool
}.

Definition getenv_value (k : option string) : pyval :=
  match k with
  | Some s => PStr s
  | None => PNone
  end.

Definition missing_key_message : string :=
  "Please set the OPENAI_API_KEY environment variable.".

(** The widgets in the order the script creates them.  The emoji that
    starts the title is left out, as in the subheaders. *)
Definition page : list script_event :=
  [Widget (StSetPageConfig "App Review Analyzer" "centered");
   Widget (StTitle " iOS App Review Analyzer");
   Widget (StTextInput "Enter App Name:");
   Widget (StSlider "# Reviews to analyze" 10 50 50 10);
   Widget (StButton "Analyze Reviews")].

(** One run of [app.py].  [st.stop()] ends the run where it stands. *)
Definition script (w : world) (i : inputs) : result unit * list script_event :=
  if negb (truthy (getenv_value (env_key i))) then
    (Ok tt, [Step (Ui (StError missing_key_message))])
  else if button_clicked i then
    let '(r, t) := analyze_button w (typed_name i) (slider_value i) in
    (r, (page ++ map Step t)%list)
  else
    (Ok tt, page).

(** The run called a service: the store or the completion API. *)
Definition is_outside_call (ev : script_event) : Prop :=
  (exists url params, ev = Step (HttpGet url params)) \/
  (exists req, ev = Step (ChatCreate req)).

End Script.

(* ===================================================================== *)
(** ** Sample responses *)
(* ===================================================================== *)

Module Examples.
Import Py Run App.
Local Open Scope string_scope.

Definition label (v : pyval) : pyval := PDict [("label", v)].

(** A feed entry for one review; [r] is the value of [im:rating.label]. *)
Definition entry (t c : string) (r : pyval) : pyval :=
  PDict [("title", label (PStr t)); ("content", label (PStr c)); ("im:rating", label r)].

(** The feed's first entry, which describes the application. *)
Definition banner : pyval :=
  PDict [("im:name", label (PStr "Testcraft")); ("title", label (PStr "Testcraft"))].

Definition feed_body (es : list pyval) : pyval :=
  PDict [("feed", PDict [("entry", PList es)])].

Definition search_body (results : list pyval) : pyval :=
  PDict [("resultCount", PInt (Z.of_nat (length results))); ("results", PList results)].

Definition five_reviews : list pyval :=
  [entry "Great" "Love it" (PStr "5"); entry "Good" "Works" (PStr "4");
   entry "Fine" "It is fine" (PStr "3"); entry "Meh" "Slow" (PStr "2");
   entry "Bad" "Crashes" (PStr "1")].

Definition api_down : chat_request -> result chat_response :=
  fun _ => Err OpenAIError.

Definition api_answers (text : string) : chat_request -> result chat_response :=
  fun _ => Ok (ChatResponse [PStr text]).

(** Both store endpoints answer 200, with [search] and [feed] as bodies. *)
Definition store (search feed : pyval) (chat : chat_request -> result chat_response)
  : world :=
  World (fun url _ => Reply 200 (Some (if String.eqb url search_url then search else feed)))
        chat.

(** The store is unreachable. *)
Definition offline (chat : chat_request -> result chat_response) : world :=
  World (fun _ _ => NoReply) chat.

(** Both store endpoints answer with [status] and a body that is not JSON. *)
Definition broken_store (status : Z) (chat : chat_request -> result chat_response)
  : world :=
  World (fun _ _ => Reply status None) chat.

(** The completion API answers the theme request only. *)
Definition api_answers_once (text : string) : chat_request -> result chat_response :=
  fun req => if (max_tokens req =? 400)%Z then Ok (ChatResponse [PStr text])
             else Err OpenAIError.

Definition one_match : pyval :=
  search_body [PDict [("trackId", PInt 123456789); ("trackName", PStr "Testcraft")]].

End Examples.

(* ===================================================================== *)
(** ** Vocabulary of the statements *)
(* ===================================================================== *)

Import Py Run App.

(** A status below 400: [raise_for_status] lets it through. *)
Definition http_success (status : Z) : Prop := (status < 400)%Z.

(** The loop body builds a record from entry [e]. *)
Definition converts (e : pyval) : Prop := exists r, review_of_entry e = Ok r.

(** The value at [e[k]["label"]] in the feed's format, when it is there. *)
Definition entry_label (e : list (string * pyval)) (k : string) : option pyval :=
  match dict_lookup k e with
  | Some (PDict d) => dict_lookup "label" d
  | _ => None
  end.

Definition has_label (e : list (string * pyval)) (k : string) : Prop :=
  entry_label e k <> None.

(** Key [k] is missing from the entry, or [label] from the object under it. *)
Definition lacks_key (e : list (string * pyval)) (k : string) : Prop :=
  dict_lookup k e = None \/
  exists d, dict_lookup k e = Some (PDict d) /\ dict_lookup "label" d = None.

(** The line of the review numbered [index] (from 1), in the spec's words:
    ["{index}. [{rating}/5] {title} - {content}"]. *)
Definition numbered_line (index : nat) (r : review) : string :=
  pretty index +:+ ". [" +:+ pretty (rating r) +:+ "/5] "
  +:+ py_str (title r) +:+ " - " +:+ py_str (content r).

(** The reviews numbered 1, 2, ... in the order received, a blank line
    between consecutive lines. *)
Definition numbered_transcript (reviews : list review) : string :=
  String.concat (newline +:+ newline)
                (zip_with numbered_line (seq 1 (length reviews)) reviews).

(** The value of a run that returned, if it did. *)
Definition returned {A} (m : M A) : option A :=
  match outcome m with
  | Ok a => Some a
  | Err _ => None
  end.

(** [v] is a JSON object. *)
Definition is_object (v : pyval) : Prop := exists d, v = PDict d.

(** [v] is a JSON array or a string: what Python can slice. *)
Definition is_sliceable (v : pyval) : Prop :=
  (exists l, v = PList l) \/ (exists s, v = PStr s).

(** Neither end of [s] is whitespace. *)
Definition trimmed (s : string) : Prop :=
  match list_ascii_of_string s with
  | [] => True
  | c :: cs => is_space c = false /\ is_space (List.last cs c) = false
  end.

(** The two progress events of the handler. *)
Definition searching : event := Ui (StSpinner "Searching for app...").
Definition fetching : event := Ui (StSpinner "Fetching reviews...").

(* ===================================================================== *)
(** ** Properties *)
(* ===================================================================== *)

(** *** Runs *)

Lemma bind_ok {A B} (a : A) (t : list event) (f : A -> M B) :
  bind (Ok a, t) f = (fst (f a), t ++ snd (f a)).
Proof. unfold bind. destruct (f a); reflexivity. Qed.

Lemma bind_err {A B} (e : exn) (t : list event) (f : A -> M B) :
  bind (Err e, t) f = (Err e, t).
Proof. reflexivity. Qed.

Lemma raise_for_status_success status body :
  http_success status -> raise_for_status (Reply status body) = Ok tt.
Proof.
  unfold http_success, raise_for_status. intros H.
  destruct (400 <=? status)%Z eqn:E; [apply Z.leb_le in E; lia | reflexivity].
Qed.

(** *** Slices *)

Lemma slice_list_nil {A} (start stop : Z) : slice_list (@nil A) start stop = [].
Proof. unfold slice_list. rewrite drop_nil, take_nil. reflexivity. Qed.

(** [l[1:k+1]] for a count [k >= 0] drops one element and keeps [k]. *)
Lemma slice_from_one {A} (l : list A) (k : Z) :
  (0 <= k)%Z -> slice_list l 1 (k + 1) = take (Z.to_nat k) (drop 1 l).
Proof.
  intros Hk. unfold slice_list, clamp_index.
  destruct (1 <? 0)%Z eqn:E1; [apply Z.ltb_lt in E1; lia|].
  destruct (k + 1 <? 0)%Z eqn:E2; [apply Z.ltb_lt in E2; lia|].
  destruct l as [|x l]; [rewrite !drop_nil, !take_nil; reflexivity|].
  cbn [length]. rewrite Nat2Z.inj_succ.
  set (n := Z.of_nat (length l)). assert (0 <= n)%Z by (subst n; lia).
  rewrite (Z.min_l 1 (Z.succ n)) by lia.
  change (Z.to_nat 1) with 1%nat. change (drop 1 (x :: l)) with l.
  destruct (Z.le_gt_cases (k + 1) (Z.succ n)) as [Hle|Hgt].
  - rewrite Z.min_l by lia. f_equal. lia.
  - rewrite Z.min_r by lia. subst n. rewrite !take_ge by lia. reflexivity.
Qed.

Lemma slice_from_one_length {A} (l : list A) (k : Z) :
  (0 <= k)%Z -> (1 <= length l)%nat ->
  Z.of_nat (length (slice_list l 1 (k + 1))) = Z.min (Z.of_nat (length l) - 1) k.
Proof.
  intros Hk Hn. rewrite slice_from_one by assumption.
  rewrite length_take, length_drop. lia.
Qed.

(** *** The review loop *)

Lemma reviews_of_entries_ok (es : list pyval) :
  Forall converts es ->
  exists rs, reviews_of_entries es = Ok rs /\ length rs = length es.
Proof.
  induction 1 as [|e es [r Hr] _ [rs [IH Hlen]]].
  - exists []. split; reflexivity.
  - exists (r :: rs). cbn [reviews_of_entries]. rewrite Hr. cbn [rbind].
    rewrite IH. cbn [rbind length]. split; [reflexivity | congruence].
Qed.

Lemma reviews_of_entries_inv (es : list pyval) (rs : list review) :
  reviews_of_entries es = Ok rs -> Forall converts es.
Proof.
  revert rs. induction es as [|e es IH]; intros rs H; [constructor|].
  cbn [reviews_of_entries] in H.
  destruct (review_of_entry e) as [r|x] eqn:Hr; cbn [rbind] in H; [|discriminate].
  destruct (reviews_of_entries es) as [rs'|x] eqn:Hrs; cbn [rbind] in H; [|discriminate].
  constructor; [exists r; assumption | eapply IH; reflexivity].
Qed.

(** Up to the first entry that raises, the loop goes through. *)
Lemma reviews_of_entries_first_fault (pre post : list pyval) (e : pyval) (x : exn) :
  Forall converts pre -> review_of_entry e = Err x ->
  reviews_of_entries (pre ++ e :: post) = Err x.
Proof.
  induction 1 as [|p pre [r Hr] _ IH]; intros He; cbn [app reviews_of_entries].
  - rewrite He. reflexivity.
  - rewrite Hr. cbn [rbind]. rewrite (IH He). reflexivity.
Qed.

(** *** One call of [fetch_reviews] on a response that arrived *)

Lemma fetch_reviews_run (w : world) (app_id country : pyval) (limit status : Z)
    (body : pyval) :
  http_get w (rss_url country app_id) [] = Reply status (Some body) ->
  http_success status ->
  fetch_reviews w app_id country limit =
    ((let* entries := feed_entries body limit in
      let* es := py_iter entries in
      reviews_of_entries es)%py,
     [HttpGet (rss_url country app_id) []]).
Proof.
  intros Hget Hok. unfold fetch_reviews, requests_get.
  generalize (rss_url country app_id) Hget. intros url Hurl.
  unfold bind, emit, lift, ret, raise. rewrite Hurl.
  rewrite (raise_for_status_success _ _ Hok). cbn [response_json].
  destruct (feed_entries body limit) as [entries|x]; cbn [rbind]; [|reflexivity].
  destruct (py_iter entries) as [es|x]; cbn [rbind]; reflexivity.
Qed.

Lemma fetch_reviews_trace (w : world) (app_id country : pyval) (limit : Z) :
  trace (fetch_reviews w app_id country limit) = [HttpGet (rss_url country app_id) []].
Proof.
  unfold fetch_reviews, requests_get.
  generalize (rss_url country app_id). intros url.
  unfold bind, emit, lift, ret, raise.
  destruct (http_get w url []) as [|status body]; [reflexivity|].
  destruct (raise_for_status (Reply status body)) as [[]|x]; [|reflexivity].
  destruct (response_json (Reply status body)) as [b|x]; [|reflexivity].
  destruct (feed_entries b limit) as [entries|x]; [|reflexivity].
  destruct (py_iter entries) as [es|x]; reflexivity.
Qed.

(** *** [fetch_reviews] *)

(** C10: when the reviews response is HTTP-successful and its JSON object
    has no [feed] key, or its [feed] object has no [entry] key, the fetch
    returns the empty list and raises nothing, whatever the limit. *)
Theorem C10_fetch_without_feed_or_entry (w : world) (app_id country : pyval)
    (limit status : Z) (d : list (string * pyval)) :
  http_get w (rss_url country app_id) [] = Reply status (Some (PDict d)) ->
  http_success status ->
  (dict_lookup "feed" d = None \/
   exists feed, dict_lookup "feed" d = Some (PDict feed) /\ dict_lookup "entry" feed = None) ->
  fetch_reviews w app_id country limit = (Ok [], [HttpGet (rss_url country app_id) []]).
Proof.
  intros Hget Hok Hlack.
  rewrite (fetch_reviews_run _ _ _ _ _ _ Hget Hok). f_equal.
  unfold feed_entries, get_method.
  destruct Hlack as [Hfeed | (feed & Hfeed & Hentry)]; rewrite Hfeed; cbn [rbind dict_lookup].
  - unfold py_slice. rewrite slice_list_nil. reflexivity.
  - rewrite Hentry. unfold py_slice. rewrite slice_list_nil. reflexivity.
Qed.

Lemma C10_fetch_without_feed_or_entry_witness :
  fetch_reviews (Examples.store PNone (PDict [("feed", PDict [])]) Examples.api_down)
                (PStr "42") (PStr "us") 50
  = (Ok [], [HttpGet "https://itunes.apple.com/us/rss/customerreviews/id=42/sortBy=mostRecent/json" []]).
Proof.
  apply (C10_fetch_without_feed_or_entry _ (PStr "42") (PStr "us") 50 200 [("feed", PDict [])]).
  - reflexivity.
  - unfold http_success. lia.
  - right. exists []. split; reflexivity.
Defined.

(** C2: on a feed whose entry array has n >= 1 elements, a fetch with
    requested count k >= 0 skips the zeroth entry and returns the records of
    the next min(n-1, k) entries, in order: never more than k, and fewer,
    without failing, when the feed is short.  The entries it goes through
    are assumed well formed; the zeroth entry is never looked at. *)
Theorem C2_fetch_count (w : world) (app_id country : pyval) (k status : Z)
    (d feed : list (string * pyval)) (es : list pyval) :
  http_get w (rss_url country app_id) [] = Reply status (Some (PDict d)) ->
  http_success status ->
  dict_lookup "feed" d = Some (PDict feed) ->
  dict_lookup "entry" feed = Some (PList es) ->
  (1 <= length es)%nat ->
  (0 <= k)%Z ->
  Forall converts (take (Z.to_nat k) (drop 1 es)) ->
  exists rs,
    fetch_reviews w app_id country k = (Ok rs, [HttpGet (rss_url country app_id) []]) /\
    reviews_of_entries (take (Z.to_nat k) (drop 1 es)) = Ok rs /\
    Z.of_nat (length rs) = Z.min (Z.of_nat (length es) - 1) k.
Proof.
  intros Hget Hok Hfeed Hentry Hn Hk Hall.
  destruct (reviews_of_entries_ok _ Hall) as (rs & Hrs & Hlen).
  exists rs. split; [|split].
  - rewrite (fetch_reviews_run _ _ _ _ _ _ Hget Hok). f_equal.
    unfold feed_entries, get_method. rewrite Hfeed. cbn [rbind]. rewrite Hentry.
    unfold py_slice. cbn [rbind py_iter]. rewrite slice_from_one by assumption.
    exact Hrs.
  - exact Hrs.
  - rewrite Hlen, <- (slice_from_one es k Hk). apply slice_from_one_length; assumption.
Qed.

(** The spec's example: one banner entry and five reviews, count 50. *)
Lemma C2_fetch_count_witness :
  exists rs,
    outcome (fetch_reviews
               (Examples.store PNone (Examples.feed_body (Examples.banner :: Examples.five_reviews))
                               Examples.api_down)
               (PStr "42") (PStr "us") 50) = Ok rs /\
    length rs = 5%nat.
Proof.
  destruct (C2_fetch_count
              (Examples.store PNone (Examples.feed_body (Examples.banner :: Examples.five_reviews))
                              Examples.api_down)
              (PStr "42") (PStr "us") 50 200
              [("feed", PDict [("entry", PList (Examples.banner :: Examples.five_reviews))])]
              [("entry", PList (Examples.banner :: Examples.five_reviews))]
              (Examples.banner :: Examples.five_reviews))
    as (rs & Hrun & _ & Hlen).
  - reflexivity.
  - unfold http_success. lia.
  - reflexivity.
  - reflexivity.
  - simpl. lia.
  - lia.
  - repeat constructor; eexists; vm_compute; reflexivity.
  - exists rs. split.
    + rewrite Hrun. reflexivity.
    + simpl in Hlen. lia.
Defined.

(** *** One entry *)

Lemma subscript_label (e : list (string * pyval)) (k : string) (v : pyval) :
  entry_label e k = Some v ->
  (let* t := subscript (PDict e) k in subscript t "label")%py = Ok v.
Proof.
  unfold entry_label, subscript. intros H.
  destruct (dict_lookup k e) as [[| | | | |l|d]|]; try discriminate.
  cbn [rbind]. rewrite H. reflexivity.
Qed.

Lemma subscript_label_inv (e : list (string * pyval)) (k : string) (v : pyval) :
  (let* t := subscript (PDict e) k in subscript t "label")%py = Ok v ->
  entry_label e k = Some v.
Proof.
  unfold entry_label, subscript.
  destruct (dict_lookup k e) as [[| | | | |l|d]|]; cbn [rbind]; try discriminate.
  destruct (dict_lookup "label" d); [congruence | discriminate].
Qed.

Lemma subscript_lacks_key (e : list (string * pyval)) (k : string) :
  lacks_key e k ->
  (let* t := subscript (PDict e) k in subscript t "label")%py = Err KeyError.
Proof.
  unfold subscript. intros [H | (d & H & Hl)]; rewrite H; cbn [rbind]; [reflexivity|].
  rewrite Hl. reflexivity.
Qed.

(** [review_of_entry], with the two label lookups grouped. *)
Lemma review_of_entry_unfold (e : list (string * pyval)) :
  review_of_entry (PDict e) =
  (let* t := (let* x := subscript (PDict e) "title" in subscript x "label") in
   let* c := (let* x := subscript (PDict e) "content" in subscript x "label") in
   let* r := get_method (PDict e) "im:rating" (PDict []) in
   let* r_label := get_method r "label" (PInt 0) in
   let* n := py_int r_label in
   Ok (Review t c n))%py.
Proof.
  unfold review_of_entry.
  destruct (subscript (PDict e) "title") as [x|]; cbn [rbind]; [|reflexivity].
  destruct (subscript x "label"); cbn [rbind]; [|reflexivity].
  destruct (subscript (PDict e) "content") as [y|]; cbn [rbind]; reflexivity.
Qed.

Lemma converts_has_labels (e : list (string * pyval)) :
  converts (PDict e) -> has_label e "title" /\ has_label e "content".
Proof.
  intros [r Hr]. rewrite review_of_entry_unfold in Hr. unfold has_label.
  destruct (let* x := subscript (PDict e) "title" in subscript x "label")%py
    as [t|] eqn:Ht; cbn [rbind] in Hr; [|discriminate].
  destruct (let* x := subscript (PDict e) "content" in subscript x "label")%py
    as [c|] eqn:Hc; cbn [rbind] in Hr; [|discriminate].
  rewrite (subscript_label_inv _ _ _ Ht), (subscript_label_inv _ _ _ Hc).
  split; discriminate.
Qed.

Lemma review_of_entry_lacks (e : list (string * pyval)) :
  lacks_key e "title" \/ (has_label e "title" /\ lacks_key e "content") ->
  review_of_entry (PDict e) = Err KeyError.
Proof.
  rewrite review_of_entry_unfold. intros [Ht | [Ht Hc]].
  - rewrite (subscript_lacks_key _ _ Ht). reflexivity.
  - unfold has_label in Ht. destruct (entry_label e "title") as [t|] eqn:Et; [|congruence].
    rewrite (subscript_label _ _ _ Et). cbn [rbind].
    rewrite (subscript_lacks_key _ _ Hc). reflexivity.
Qed.

Lemma review_of_entry_rating (e : list (string * pyval)) (t c : pyval) :
  entry_label e "title" = Some t ->
  entry_label e "content" = Some c ->
  review_of_entry (PDict e) =
  (let* r := get_method (PDict e) "im:rating" (PDict []) in
   let* r_label := get_method r "label" (PInt 0) in
   let* n := py_int r_label in
   Ok (Review t c n))%py.
Proof.
  intros Ht Hc. rewrite review_of_entry_unfold.
  rewrite (subscript_label _ _ _ Ht), (subscript_label _ _ _ Hc). reflexivity.
Qed.

(** C1 (as amended): for an entry with [title.label] and [content.label],
    the record's rating is [int] of [im:rating.label]: 0 when [im:rating]
    or its [label] is absent, the integer itself when the label is a JSON
    integer, the literal's value when the label is a string holding an
    integer literal.  No range is enforced, and a string that is not an
    integer literal raises [ValueError]. *)
Theorem C1_rating_is_int_of_label (e : list (string * pyval)) (t c : pyval) :
  entry_label e "title" = Some t ->
  entry_label e "content" = Some c ->
  (dict_lookup "im:rating" e = None ->
     review_of_entry (PDict e) = Ok (Review t c 0)) /\
  (forall d, dict_lookup "im:rating" e = Some (PDict d) -> dict_lookup "label" d = None ->
     review_of_entry (PDict e) = Ok (Review t c 0)) /\
  (forall z, entry_label e "im:rating" = Some (PInt z) ->
     review_of_entry (PDict e) = Ok (Review t c z)) /\
  (forall s z, entry_label e "im:rating" = Some (PStr s) -> parse_int s = Some z ->
     review_of_entry (PDict e) = Ok (Review t c z)) /\
  (forall s, entry_label e "im:rating" = Some (PStr s) -> parse_int s = None ->
     review_of_entry (PDict e) = Err ValueError).
Proof.
  intros Ht Hc. rewrite (review_of_entry_rating e t c Ht Hc).
  unfold entry_label, get_method. repeat split.
  - intros ->. reflexivity.
  - intros d -> Hl. cbn [rbind]. rewrite Hl. reflexivity.
  - intros z H. destruct (dict_lookup "im:rating" e) as [[| | | | |l|d]|]; try discriminate.
    cbn [rbind]. rewrite H. reflexivity.
  - intros s z H Hp.
    destruct (dict_lookup "im:rating" e) as [[| | | | |l|d]|]; try discriminate.
    cbn [rbind]. rewrite H. cbn [rbind py_int]. rewrite Hp. reflexivity.
  - intros s H Hp.
    destruct (dict_lookup "im:rating" e) as [[| | | | |l|d]|]; try discriminate.
    cbn [rbind]. rewrite H. cbn [rbind py_int]. rewrite Hp. reflexivity.
Qed.

Lemma C1_rating_is_int_of_label_witness :
  review_of_entry
    (PDict [("title", Examples.label (PStr "Great")); ("content", Examples.label (PStr "Love it"))])
  = Ok (Review (PStr "Great") (PStr "Love it") 0).
Proof.
  destruct (C1_rating_is_int_of_label
              [("title", Examples.label (PStr "Great")); ("content", Examples.label (PStr "Love it"))]
              (PStr "Great") (PStr "Love it") eq_refl eq_refl) as [Habsent _].
  apply Habsent. reflexivity.
Defined.

(** C1 fails as stated: a rating label that is not a number makes the
    whole fetch raise [ValueError], and a numeric label outside 0..5 is
    returned as it is. *)
Lemma C1_counterexample :
  outcome (fetch_reviews
             (Examples.store PNone
                (Examples.feed_body [Examples.banner; Examples.entry "Great" "Love it" (PStr "five")])
                Examples.api_down)
             (PStr "42") (PStr "us") 50) = Err ValueError /\
  outcome (fetch_reviews
             (Examples.store PNone
                (Examples.feed_body [Examples.banner; Examples.entry "Great" "Love it" (PStr "9")])
                Examples.api_down)
             (PStr "42") (PStr "us") 50) = Ok [Review (PStr "Great") (PStr "Love it") 9].
Proof. split; vm_compute; reflexivity. Qed.

(** C8: an entry the fetch goes through that has no [title] or no
    [content], or no [label] under one of them, makes the fetch raise: it
    is neither skipped nor given a default.  The fault is [KeyError] when
    the missing key is the first lookup to fail.  Only the rating may be
    absent: an entry with both labels and no [im:rating] gives a record. *)
Theorem C8_missing_title_or_content_raises (w : world) (app_id country : pyval)
    (limit status : Z) (d feed : list (string * pyval)) (es : list pyval) :
  http_get w (rss_url country app_id) [] = Reply status (Some (PDict d)) ->
  http_success status ->
  dict_lookup "feed" d = Some (PDict feed) ->
  dict_lookup "entry" feed = Some (PList es) ->
  (forall e, In (PDict e) (slice_list es 1 (limit + 1)) ->
     ~ has_label e "title" \/ ~ has_label e "content" ->
     exists x, outcome (fetch_reviews w app_id country limit) = Err x) /\
  (forall e pre post, slice_list es 1 (limit + 1) = pre ++ PDict e :: post ->
     Forall converts pre ->
     lacks_key e "title" \/ (has_label e "title" /\ lacks_key e "content") ->
     outcome (fetch_reviews w app_id country limit) = Err KeyError) /\
  (forall e t c, entry_label e "title" = Some t -> entry_label e "content" = Some c ->
     dict_lookup "im:rating" e = None ->
     review_of_entry (PDict e) = Ok (Review t c 0)).
Proof.
  intros Hget Hok Hfeed Hentry.
  assert (Hrun : outcome (fetch_reviews w app_id country limit)
                 = reviews_of_entries (slice_list es 1 (limit + 1))).
  { rewrite (fetch_reviews_run _ _ _ _ _ _ Hget Hok). unfold outcome. cbn [fst].
    unfold feed_entries, get_method. rewrite Hfeed. cbn [rbind]. rewrite Hentry.
    reflexivity. }
  split; [|split].
  - intros e Hin Hlack. rewrite Hrun.
    destruct (reviews_of_entries (slice_list es 1 (limit + 1))) as [rs|x] eqn:Hrs;
      [|exists x; reflexivity].
    exfalso. apply reviews_of_entries_inv in Hrs.
    rewrite Forall_forall in Hrs. apply list_elem_of_In in Hin.
    destruct (converts_has_labels e (Hrs _ Hin)) as [Ht Hc].
    destruct Hlack; contradiction.
  - intros e pre post Hsplit Hpre Hlack. rewrite Hrun, Hsplit.
    apply reviews_of_entries_first_fault; [assumption|].
    apply review_of_entry_lacks. assumption.
  - intros e t c Ht Hc Hr. rewrite (review_of_entry_rating e t c Ht Hc).
    unfold get_method. rewrite Hr. reflexivity.
Qed.

Lemma C8_missing_title_or_content_raises_witness :
  outcome (fetch_reviews
             (Examples.store PNone
                (Examples.feed_body
                   [Examples.banner; PDict [("content", Examples.label (PStr "Love it"))]])
                Examples.api_down)
             (PStr "42") (PStr "us") 50) = Err KeyError.
Proof.
  destruct (C8_missing_title_or_content_raises
              (Examples.store PNone
                 (Examples.feed_body
                    [Examples.banner; PDict [("content", Examples.label (PStr "Love it"))]])
                 Examples.api_down)
              (PStr "42") (PStr "us") 50 200
              [("feed", PDict [("entry", PList [Examples.banner;
                                                PDict [("content", Examples.label (PStr "Love it"))]])])]
              [("entry", PList [Examples.banner;
                                PDict [("content", Examples.label (PStr "Love it"))]])]
              [Examples.banner; PDict [("content", Examples.label (PStr "Love it"))]])
    as (_ & Hkey & _).
  - reflexivity.
  - unfold http_success. lia.
  - reflexivity.
  - reflexivity.
  - apply (Hkey [("content", Examples.label (PStr "Love it"))] [] []).
    + reflexivity.
    + constructor.
    + left. left. reflexivity.
Defined.

(** *** Strings of values *)

Lemma pretty_N_go_length (x : N) (s : string) :
  (String.length s <= String.length (pretty_N_go x s))%nat.
Proof.
  revert s. induction (N.lt_wf_0 x) as [x _ IH]. intros s.
  destruct (N.eq_dec x 0%N) as [->|Hx].
  - rewrite pretty_N_go_0. lia.
  - rewrite pretty_N_go_step by lia.
    etransitivity; [|apply IH; apply N.div_lt; lia].
    cbn [String.length]. lia.
Qed.

Lemma pretty_N_nonempty (x : N) : pretty x <> "".
Proof.
  unfold pretty, pretty_N. destruct (decide (x = 0%N)) as [|Hx]; [discriminate|].
  rewrite pretty_N_go_step by lia. intros H.
  pose proof (pretty_N_go_length (x `div` 10) (String (pretty_N_char (x `mod` 10)) "")) as Hlen.
  rewrite H in Hlen. cbn [String.length] in Hlen. lia.
Qed.

Lemma pretty_Z_nonempty (z : Z) : pretty z <> "".
Proof.
  destruct z as [|p|p]; unfold pretty, pretty_Z.
  - discriminate.
  - apply (pretty_N_nonempty (Npos p)).
  - discriminate.
Qed.

(** [str(v)] is empty for the empty string only. *)
Lemma py_str_nonempty (v : pyval) : v <> PStr "" -> py_str v <> "".
Proof.
  intros Hv. destruct v as [|[]|z|[|[]|t nz c s]|s|l|d]; cbn; try discriminate.
  - apply pretty_Z_nonempty.
  - congruence.
Qed.

(** *** [search_app] *)

Lemma search_app_run (w : world) (app_name : string) (status : Z) (body : pyval) :
  http_get w search_url (search_params app_name) = Reply status (Some body) ->
  http_success status ->
  search_app w app_name =
    ((let* results := get_method body "results" (PList []) in
      if negb (truthy results) then Ok (PNone, PNone)
      else
        let* app := subscript_int results 0 in
        let* track_id := get_method app "trackId" PNone in
        let* track_name := get_method app "trackName" PNone in
        Ok (PStr (py_str track_id), track_name))%py,
     [HttpGet search_url (search_params app_name)]).
Proof.
  intros Hget Hok. unfold search_app, requests_get.
  unfold bind, emit, lift, ret, raise. rewrite Hget.
  rewrite (raise_for_status_success _ _ Hok). cbn [response_json].
  destruct (get_method body "results" (PList [])) as [results|x]; cbn [rbind];
    [|reflexivity].
  destruct (negb (truthy results)); [reflexivity|].
  destruct (subscript_int results 0) as [app|x]; cbn [rbind]; [|reflexivity].
  destruct (get_method app "trackId" PNone) as [tid|x]; cbn [rbind]; [|reflexivity].
  destruct (get_method app "trackName" PNone) as [nm|x]; cbn [rbind]; reflexivity.
Qed.

Lemma search_app_first_result (w : world) (app_name : string) (status : Z)
    (d app : list (string * pyval)) (rest : list pyval) :
  http_get w search_url (search_params app_name) = Reply status (Some (PDict d)) ->
  http_success status ->
  dict_lookup "results" d = Some (PList (PDict app :: rest)) ->
  search_app w app_name =
    (Ok (PStr (py_str (default PNone (dict_lookup "trackId" app))),
         default PNone (dict_lookup "trackName" app)),
     [HttpGet search_url (search_params app_name)]).
Proof.
  intros Hget Hok Hres. rewrite (search_app_run _ _ _ _ Hget Hok).
  unfold get_method. rewrite Hres. reflexivity.
Qed.

(** C5 (as amended): when the first element of [results] is an object,
    lookup returns [str] of its [trackId] ([str(None)] when there is none)
    as the identifier, and its [trackName] as the name.  The identifier is
    non-empty unless [trackId] is the empty string. *)
Theorem C5_lookup_first_match (w : world) (app_name : string) (status : Z)
    (d app : list (string * pyval)) (rest : list pyval) :
  http_get w search_url (search_params app_name) = Reply status (Some (PDict d)) ->
  http_success status ->
  dict_lookup "results" d = Some (PList (PDict app :: rest)) ->
  outcome (search_app w app_name) =
    Ok (PStr (py_str (default PNone (dict_lookup "trackId" app))),
        default PNone (dict_lookup "trackName" app)) /\
  (dict_lookup "trackId" app <> Some (PStr "") ->
   py_str (default PNone (dict_lookup "trackId" app)) <> "").
Proof.
  intros Hget Hok Hres. split.
  - rewrite (search_app_first_result _ _ _ _ _ _ Hget Hok Hres). reflexivity.
  - intros Hne. apply py_str_nonempty.
    destruct (dict_lookup "trackId" app) as [v|]; simpl;
      [intros ->; apply Hne; reflexivity | discriminate].
Qed.

Lemma C5_lookup_first_match_witness :
  outcome (search_app
             (Examples.store
                (Examples.search_body
                   [PDict [("trackId", PInt 123456789); ("trackName", PStr "Testcraft")]])
                PNone Examples.api_down)
             "Testcraft")
  = Ok (PStr "123456789", PStr "Testcraft").
Proof.
  destruct (C5_lookup_first_match
              (Examples.store
                 (Examples.search_body
                    [PDict [("trackId", PInt 123456789); ("trackName", PStr "Testcraft")]])
                 PNone Examples.api_down)
              "Testcraft" 200
              [("resultCount", PInt 1);
               ("results", PList [PDict [("trackId", PInt 123456789); ("trackName", PStr "Testcraft")]])]
              [("trackId", PInt 123456789); ("trackName", PStr "Testcraft")] [])
    as [Hrun _].
  - reflexivity.
  - unfold http_success. lia.
  - reflexivity.
  - rewrite Hrun. vm_compute. reflexivity.
Defined.

(** C5 fails as stated: a first result whose [trackId] is the empty string
    gives an empty identifier. *)
Lemma C5_counterexample :
  outcome (search_app
             (Examples.store
                (Examples.search_body [PDict [("trackId", PStr ""); ("trackName", PStr "Testcraft")]])
                PNone Examples.api_down)
             "Testcraft")
  = Ok (PStr "", PStr "Testcraft").
Proof. vm_compute. reflexivity. Qed.

(** *** The transcript *)

Lemma pretty_succ (i : nat) : pretty (Z.of_nat i + 1)%Z = pretty (S i).
Proof.
  replace (Z.of_nat i + 1)%Z with (Zpos (Pos.of_succ_nat i)) by lia.
  reflexivity.
Qed.

Lemma review_line_numbered (i : nat) (r : review) :
  review_line i r = numbered_line (S i) r.
Proof. unfold review_line, numbered_line. rewrite pretty_succ. reflexivity. Qed.

Lemma imap_numbered (rs : list review) (k : nat) :
  imap (fun i => numbered_line (k + S i)) rs
  = zip_with numbered_line (seq (S k) (length rs)) rs.
Proof.
  revert k. induction rs as [|r rs IH]; intros k; [reflexivity|].
  cbn [imap length seq zip_with]. f_equal.
  - f_equal. lia.
  - rewrite <- (IH (S k)). apply imap_ext. intros i x _. cbn. f_equal. lia.
Qed.

(** C3: the transcript is the reviews in the order received, numbered
    from 1, each as the line "index. [rating/5] title - content" with the
    record's rating, title and content inserted unchanged, consecutive
    lines separated by a blank line. *)
Theorem C3_transcript_numbered_in_order (reviews : list review) :
  transcript reviews = numbered_transcript reviews /\
  (forall i r t c, reviews !! i = Some r -> title r = PStr t -> content r = PStr c ->
     zip_with numbered_line (seq 1 (length reviews)) reviews !! i
     = Some (pretty (S i) +:+ ". [" +:+ pretty (rating r) +:+ "/5] " +:+ t +:+ " - " +:+ c)).
Proof.
  split.
  - unfold transcript, numbered_transcript. f_equal.
    rewrite <- (imap_numbered reviews 0). apply imap_ext.
    intros i r _. apply review_line_numbered.
  - intros i r t c Hi Ht Hc. rewrite lookup_zip_with.
    rewrite lookup_seq_lt by (apply lookup_lt_Some in Hi; exact Hi).
    cbn [mbind option_bind]. rewrite Hi. cbn [fmap option_fmap option_map mbind option_bind].
    unfold numbered_line. rewrite Ht, Hc. reflexivity.
Qed.

Lemma C3_transcript_numbered_in_order_witness :
  transcript [Review (PStr "Great") (PStr "Love it") 5; Review (PStr "Bad") (PStr "Crashes") 1]
  = "1. [5/5] Great - Love it" +:+ newline +:+ newline +:+ "2. [1/5] Bad - Crashes".
Proof.
  destruct (C3_transcript_numbered_in_order
              [Review (PStr "Great") (PStr "Love it") 5; Review (PStr "Bad") (PStr "Crashes") 1])
    as [Heq _].
  rewrite Heq. vm_compute. reflexivity.
Defined.

(** *** [analyze_reviews_openai] *)

(** Once the first completion has returned text, the second request goes
    out, and the result is decided by its answer. *)
Lemma analyze_run (w : world) (reviews : list review) (resp : chat_response)
    (summary : string) :
  chat_create w (theme_request (transcript reviews)) = Ok resp ->
  first_choice_stripped resp = Ok summary ->
  analyze_reviews_openai w reviews =
    ((let* imp_resp := chat_create w (improve_request (transcript reviews)) in
      let* improvements := first_choice_stripped imp_resp in
      Ok (summary, improvements))%py,
     [ChatCreate (theme_request (transcript reviews));
      ChatCreate (improve_request (transcript reviews))]).
Proof.
  intros Hresp Hsum. unfold analyze_reviews_openai, chat_completion_create.
  unfold bind, emit, lift, ret. rewrite Hresp, Hsum.
  destruct (chat_create w (improve_request (transcript reviews))) as [r2|x];
    cbn [rbind]; [|reflexivity].
  destruct (first_choice_stripped r2); reflexivity.
Qed.

(** The theme request always goes out; nothing but the two requests does. *)
Lemma analyze_trace_cases (w : world) (reviews : list review) :
  trace (analyze_reviews_openai w reviews)
    = [ChatCreate (theme_request (transcript reviews))] \/
  trace (analyze_reviews_openai w reviews)
    = [ChatCreate (theme_request (transcript reviews));
       ChatCreate (improve_request (transcript reviews))].
Proof.
  destruct (chat_create w (theme_request (transcript reviews))) as [r1|x] eqn:H1.
  - destruct (first_choice_stripped r1) as [s|x] eqn:Hs.
    + right. rewrite (analyze_run _ _ _ _ H1 Hs). reflexivity.
    + left. unfold analyze_reviews_openai, chat_completion_create.
      unfold bind, emit, lift, ret. rewrite H1, Hs. reflexivity.
  - left. unfold analyze_reviews_openai, chat_completion_create.
    unfold bind, emit, lift, ret. rewrite H1. reflexivity.
Qed.

(** C6: the analysis takes a review list of any length, the empty one
    included: whenever the completion service answers its two requests, it
    returns the two stripped texts and has issued both requests.  For the
    empty list the transcript is the empty string, and the prompts sent
    hold nothing between their opening and closing sentences. *)
Theorem C6_analysis_accepts_any_list (w : world) (reviews : list review)
    (resp1 resp2 : chat_response) (summary improvements : string) :
  chat_create w (theme_request (transcript reviews)) = Ok resp1 ->
  first_choice_stripped resp1 = Ok summary ->
  chat_create w (improve_request (transcript reviews)) = Ok resp2 ->
  first_choice_stripped resp2 = Ok improvements ->
  analyze_reviews_openai w reviews =
    (Ok (summary, improvements),
     [ChatCreate (theme_request (transcript reviews));
      ChatCreate (improve_request (transcript reviews))]) /\
  transcript [] = "" /\
  (reviews = [] ->
   trace (analyze_reviews_openai w reviews) =
     [ChatCreate (theme_request ""); ChatCreate (improve_request "")]).
Proof.
  intros H1 Hs1 H2 Hs2.
  assert (Hrun : analyze_reviews_openai w reviews =
                 (Ok (summary, improvements),
                  [ChatCreate (theme_request (transcript reviews));
                   ChatCreate (improve_request (transcript reviews))])).
  { rewrite (analyze_run _ _ _ _ H1 Hs1), H2. cbn [rbind]. rewrite Hs2. reflexivity. }
  split; [exact Hrun | split; [reflexivity|]].
  intros ->. rewrite Hrun. reflexivity.
Qed.

Lemma C6_analysis_accepts_any_list_witness :
  analyze_reviews_openai (Examples.store PNone PNone (Examples.api_answers " fine ")) []
  = (Ok ("fine", "fine"), [ChatCreate (theme_request ""); ChatCreate (improve_request "")]).
Proof.
  destruct (C6_analysis_accepts_any_list
              (Examples.store PNone PNone (Examples.api_answers " fine ")) []
              (ChatResponse [PStr " fine "]) (ChatResponse [PStr " fine "]) "fine" "fine")
    as [Hrun _]; [reflexivity | reflexivity | reflexivity | reflexivity | exact Hrun].
Defined.

(** C7: a run of the analysis whose first completion returns text issues
    exactly two requests, one after the other.  Both carry the system
    message "You are a product growth analyst." and temperature 0.0; the
    first asks for the theme summary with at most 400 tokens, the second
    for the improvements with at most 200, and the same transcript is
    placed in both user messages. *)
Theorem C7_two_completion_requests (w : world) (reviews : list review)
    (resp : chat_response) (summary : string) :
  chat_create w (theme_request (transcript reviews)) = Ok resp ->
  first_choice_stripped resp = Ok summary ->
  trace (analyze_reviews_openai w reviews) =
    [ChatCreate
       {| model := "gpt-4";
          messages :=
            [("system", "You are a product growth analyst.");
             ("user",
              "Summarize the following user reviews:" +:+ newline +:+ newline
              +:+ transcript reviews +:+ newline +:+ newline
              +:+ "Extract 3 key positive themes, 3 key pain points, and an overall sentiment (positive/negative/mixed).")];
          temperature := zero_temperature;
          max_tokens := 400 |};
     ChatCreate
       {| model := "gpt-4";
          messages :=
            [("system", "You are a product growth analyst.");
             ("user",
              "Based on these user reviews, list 3 specific, high-impact feature or UX improvements the product team should prioritize:"
              +:+ newline +:+ newline
              +:+ transcript reviews +:+ newline +:+ newline
              +:+ "Provide each improvement as a short actionable bullet.")];
          temperature := zero_temperature;
          max_tokens := 200 |}] /\
  float_repr zero_temperature = "0.0" /\
  float_truthy zero_temperature = false.
Proof.
  intros H1 Hs. rewrite (analyze_run _ _ _ _ H1 Hs).
  split; [reflexivity | split; reflexivity].
Qed.

Lemma C7_two_completion_requests_witness :
  map (fun ev => match ev with ChatCreate r => max_tokens r | _ => 0%Z end)
      (trace (analyze_reviews_openai
                (Examples.store PNone PNone (Examples.api_answers "fine"))
                [Review (PStr "Great") (PStr "Love it") 5]))
  = [400%Z; 200%Z].
Proof.
  destruct (C7_two_completion_requests
              (Examples.store PNone PNone (Examples.api_answers "fine"))
              [Review (PStr "Great") (PStr "Love it") 5]
              (ChatResponse [PStr "fine"]) "fine") as [Htrace _];
    [reflexivity | reflexivity | rewrite Htrace; reflexivity].
Defined.

(** *** The button handler *)

(** Lookup gave nothing usable: the message is shown and the run ends. *)
Lemma analyze_button_no_app (w : world) (app_name : string) (limit : Z)
    (app_id found_name : pyval) (ts : list event) :
  search_app w app_name = (Ok (app_id, found_name), ts) ->
  truthy app_id = false ->
  analyze_button w app_name limit =
    (Ok tt, searching :: ts ++ [Ui (StError (no_app_message app_name))]).
Proof.
  intros Hsearch Hfalse. unfold analyze_button.
  unfold emit at 1. rewrite bind_ok. rewrite Hsearch, bind_ok.
  rewrite Hfalse. reflexivity.
Qed.

(** Lookup gave an identifier: the feed request is sent, and whatever
    follows, no error message is displayed. *)
Lemma analyze_button_found (w : world) (app_name : string) (limit : Z)
    (app_id found_name : pyval) (ts : list event) :
  search_app w app_name = (Ok (app_id, found_name), ts) ->
  truthy app_id = true ->
  exists rest,
    trace (analyze_button w app_name limit) =
      searching :: ts ++
      [Ui (StSuccess ("Found " +:+ py_str found_name +:+ " (ID: " +:+ py_str app_id +:+ ")"));
       fetching;
       HttpGet (rss_url (PStr "us") app_id) []] ++ rest /\
    Forall (fun ev => ~ is_error_display ev) rest.
Proof.
  intros Hsearch Htrue.
  pose proof (fetch_reviews_trace w app_id (PStr "us") limit) as Hft.
  destruct (fetch_reviews w app_id (PStr "us") limit) as [[reviews|x] tf] eqn:Hf;
    unfold trace in Hft; cbn [snd] in Hft; subst tf.
  - pose proof (analyze_trace_cases w reviews) as Hat.
    destruct (analyze_reviews_openai w reviews) as [[[summary improvements]|x] ta] eqn:Ha;
      unfold trace in Hat; cbn [snd] in Hat.
    + eexists. split.
      * unfold analyze_button. unfold emit at 1. rewrite bind_ok, Hsearch, bind_ok.
        rewrite Htrue. cbn [negb]. unfold emit at 1. rewrite bind_ok.
        unfold emit at 1. rewrite bind_ok. rewrite Hf, bind_ok.
        unfold emit at 1. rewrite bind_ok. unfold emit at 1. rewrite bind_ok.
        rewrite Ha, bind_ok. unfold emit, bind, trace. cbn [fst snd app].
        rewrite <- ?app_assoc. cbn [app]. reflexivity.
      * destruct Hat as [-> | ->]; repeat constructor; intros [text Ht]; discriminate.
    + eexists. split.
      * unfold analyze_button. unfold emit at 1. rewrite bind_ok, Hsearch, bind_ok.
        rewrite Htrue. cbn [negb]. unfold emit at 1. rewrite bind_ok.
        unfold emit at 1. rewrite bind_ok. rewrite Hf, bind_ok.
        unfold emit at 1. rewrite bind_ok. unfold emit at 1. rewrite bind_ok.
        rewrite Ha, bind_err. unfold trace. cbn [fst snd app].
        rewrite <- ?app_assoc. cbn [app]. reflexivity.
      * destruct Hat as [-> | ->]; repeat constructor; intros [text Ht]; discriminate.
  - exists []. split; [|constructor].
    unfold analyze_button. unfold emit at 1. rewrite bind_ok, Hsearch, bind_ok.
    rewrite Htrue. cbn [negb]. unfold emit at 1. rewrite bind_ok.
    unfold emit at 1. rewrite bind_ok. rewrite Hf, bind_err.
    unfold trace. cbn [fst snd app]. rewrite <- ?app_assoc. cbn [app]. reflexivity.
Qed.

(** C4: when the search response is successful and its [results] array is
    empty, lookup returns [(None, None)] and raises nothing; the handler
    then shows the "No app found" message and stops: no request goes to
    the review feed. *)
Theorem C4_no_match_shows_message_and_skips_fetch (w : world) (app_name : string)
    (limit status : Z) (d : list (string * pyval)) :
  http_get w search_url (search_params app_name) = Reply status (Some (PDict d)) ->
  http_success status ->
  dict_lookup "results" d = Some (PList []) ->
  search_app w app_name = (Ok (PNone, PNone), [HttpGet search_url (search_params app_name)]) /\
  analyze_button w app_name limit =
    (Ok tt,
     [Ui (StSpinner "Searching for app...");
      HttpGet search_url (search_params app_name);
      Ui (StError ("No app found matching '" +:+ app_name
                   +:+ "'. Please check the name and try again."))]) /\
  Forall (fun ev => ~ is_feed_request ev) (trace (analyze_button w app_name limit)).
Proof.
  intros Hget Hok Hres.
  assert (Hsearch : search_app w app_name
                    = (Ok (PNone, PNone), [HttpGet search_url (search_params app_name)])).
  { rewrite (search_app_run _ _ _ _ Hget Hok). unfold get_method. rewrite Hres. reflexivity. }
  pose proof (analyze_button_no_app w app_name limit _ _ _ Hsearch eq_refl) as Hrun.
  split; [exact Hsearch | split; [exact Hrun |]].
  rewrite Hrun. unfold trace, searching. cbn [snd app].
  repeat constructor; intros (country & app_id & Hev); unfold search_params in Hev;
    discriminate.
Qed.

Lemma C4_no_match_shows_message_and_skips_fetch_witness :
  analyze_button (Examples.store (Examples.search_body []) PNone Examples.api_down) "zzz" 10
  = (Ok tt,
     [Ui (StSpinner "Searching for app...");
      HttpGet search_url (search_params "zzz");
      Ui (StError "No app found matching 'zzz'. Please check the name and try again.")]).
Proof.
  destruct (C4_no_match_shows_message_and_skips_fetch
              (Examples.store (Examples.search_body []) PNone Examples.api_down) "zzz" 10 200
              [("resultCount", PInt 0); ("results", PList [])])
    as (_ & Hrun & _).
  - reflexivity.
  - unfold http_success. lia.
  - reflexivity.
  - exact Hrun.
Defined.

(** C9: when the first result is an object without [trackId], lookup
    returns the string "None" as the identifier.  It is truthy, so the
    handler reports success and sends the feed request for [id=None]; no
    error message is displayed in the rest of the run. *)
Theorem C9_missing_track_id_proceeds_to_fetch (w : world) (app_name : string)
    (limit status : Z) (d hit : list (string * pyval)) (rest : list pyval) :
  http_get w search_url (search_params app_name) = Reply status (Some (PDict d)) ->
  http_success status ->
  dict_lookup "results" d = Some (PList (PDict hit :: rest)) ->
  dict_lookup "trackId" hit = None ->
  outcome (search_app w app_name)
    = Ok (PStr "None", default PNone (dict_lookup "trackName" hit)) /\
  truthy (PStr "None") = true /\
  (exists after,
     trace (analyze_button w app_name limit) =
       [Ui (StSpinner "Searching for app...");
        HttpGet search_url (search_params app_name);
        Ui (StSuccess ("Found " +:+ py_str (default PNone (dict_lookup "trackName" hit))
                       +:+ " (ID: None)"));
        Ui (StSpinner "Fetching reviews...");
        HttpGet "https://itunes.apple.com/us/rss/customerreviews/id=None/sortBy=mostRecent/json" []]
       ++ after) /\
  Forall (fun ev => ~ is_error_display ev) (trace (analyze_button w app_name limit)).
Proof.
  intros Hget Hok Hres Hid.
  pose proof (search_app_first_result _ _ _ _ _ _ Hget Hok Hres) as Hsearch.
  rewrite Hid in Hsearch. cbn [default from_option id py_str py_repr] in Hsearch.
  destruct (analyze_button_found w app_name limit _ _ _ Hsearch eq_refl)
    as (after & Htrace & Hafter).
  split; [rewrite Hsearch; reflexivity | split; [reflexivity | split]].
  - exists after. rewrite Htrace. reflexivity.
  - rewrite Htrace. unfold searching, fetching. cbn [app].
    repeat (constructor; [intros [text Hev]; discriminate|]). exact Hafter.
Qed.

Lemma C9_missing_track_id_proceeds_to_fetch_witness :
  outcome (search_app
             (Examples.store (Examples.search_body [PDict [("trackName", PStr "Testcraft")]])
                             (Examples.feed_body []) Examples.api_down)
             "Testcraft")
  = Ok (PStr "None", PStr "Testcraft").
Proof.
  destruct (C9_missing_track_id_proceeds_to_fetch
              (Examples.store (Examples.search_body [PDict [("trackName", PStr "Testcraft")]])
                              (Examples.feed_body []) Examples.api_down)
              "Testcraft" 10 200
              [("resultCount", PInt 1); ("results", PList [PDict [("trackName", PStr "Testcraft")]])]
              [("trackName", PStr "Testcraft")] [])
    as (Hsearch & _).
  - reflexivity.
  - unfold http_success. lia.
  - reflexivity.
  - reflexivity.
  - exact Hsearch.
Defined.

(** *** Worked runs *)

(** The spec's scenario: "Testcraft" resolves to 123456789, and a feed of
    one banner and ten reviews, fetched with limit 10, gives ten records. *)
Example testcraft_scenario :
  let reviews := Examples.five_reviews ++ Examples.five_reviews in
  let w := Examples.store
             (Examples.search_body
                [PDict [("trackId", PInt 123456789); ("trackName", PStr "Testcraft")]])
             (Examples.feed_body (Examples.banner :: reviews))
             (Examples.api_answers "Overall sentiment: mixed") in
  outcome (search_app w "Testcraft") = Ok (PStr "123456789", PStr "Testcraft") /\
  (length <$> returned (fetch_reviews w (PStr "123456789") (PStr "us") 10)) = Some 10%nat /\
  outcome (analyze_button w "Testcraft" 10) = Ok tt.
Proof. vm_compute. repeat split. Qed.

(** A limit is a count: with a negative one, Python's slice counts its
    end from the back of the list instead. *)
Example slice_negative_limit :
  slice_list [0; 1; 2; 3; 4; 5; 6; 7; 8; 9]%nat 1 (-3 + 1) = [1; 2; 3; 4; 5; 6; 7]%nat.
Proof. reflexivity. Qed.

(* ===================================================================== *)
(** ** Further properties of the code *)
(* ===================================================================== *)

(** *** Faults of the store *)

Lemma raise_for_status_error (status : Z) (body : option pyval) :
  (400 <= status < 600)%Z -> raise_for_status (Reply status body) = Err HTTPError.
Proof.
  intros [Hlo Hhi]. unfold raise_for_status.
  apply Z.leb_le in Hlo. apply Z.ltb_lt in Hhi. rewrite Hlo, Hhi. reflexivity.
Qed.

(** X1: lookup sends its one request and then raises [ConnectionError]
    when the store cannot be reached, [HTTPError] on a status from 400 to
    599 whatever the body, and [JSONDecodeError] when a successful response
    has no JSON body. *)
Theorem search_app_store_fault (w : world) (app_name : string) :
  (http_get w search_url (search_params app_name) = NoReply ->
   search_app w app_name
   = (Err ConnectionError, [HttpGet search_url (search_params app_name)])) /\
  (forall status body,
     http_get w search_url (search_params app_name) = Reply status body ->
     (400 <= status < 600)%Z ->
     search_app w app_name
     = (Err HTTPError, [HttpGet search_url (search_params app_name)])) /\
  (forall status,
     http_get w search_url (search_params app_name) = Reply status None ->
     http_success status ->
     search_app w app_name
     = (Err JSONDecodeError, [HttpGet search_url (search_params app_name)])).
Proof.
  unfold search_app, requests_get. unfold bind, emit, lift, ret, raise.
  split; [|split].
  - intros ->. reflexivity.
  - intros status body -> Hst. rewrite (raise_for_status_error _ _ Hst). reflexivity.
  - intros status -> Hok. rewrite (raise_for_status_success _ _ Hok). reflexivity.
Qed.

Lemma search_app_store_fault_witness :
  search_app (Examples.broken_store 503 Examples.api_down) "Testcraft"
  = (Err HTTPError, [HttpGet search_url (search_params "Testcraft")]).
Proof.
  destruct (search_app_store_fault (Examples.broken_store 503 Examples.api_down) "Testcraft")
    as (_ & Hstatus & _).
  apply (Hstatus 503%Z None); [reflexivity | lia].
Defined.

(** X2: the fetch sends its one request and then raises
    [ConnectionError] when the store cannot be reached, [HTTPError] on a
    status from 400 to 599, and [JSONDecodeError] when a successful
    response has no JSON body; no record is built. *)
Theorem fetch_reviews_store_fault (w : world) (app_id country : pyval) (limit : Z) :
  (http_get w (rss_url country app_id) [] = NoReply ->
   fetch_reviews w app_id country limit
   = (Err ConnectionError, [HttpGet (rss_url country app_id) []])) /\
  (forall status body,
     http_get w (rss_url country app_id) [] = Reply status body ->
     (400 <= status < 600)%Z ->
     fetch_reviews w app_id country limit
     = (Err HTTPError, [HttpGet (rss_url country app_id) []])) /\
  (forall status,
     http_get w (rss_url country app_id) [] = Reply status None ->
     http_success status ->
     fetch_reviews w app_id country limit
     = (Err JSONDecodeError, [HttpGet (rss_url country app_id) []])).
Proof.
  unfold fetch_reviews, requests_get.
  generalize (rss_url country app_id). intros url.
  unfold bind, emit, lift, ret, raise.
  split; [|split].
  - intros ->. reflexivity.
  - intros status body -> Hst. rewrite (raise_for_status_error _ _ Hst). reflexivity.
  - intros status -> Hok. rewrite (raise_for_status_success _ _ Hok). reflexivity.
Qed.

Lemma fetch_reviews_store_fault_witness :
  fetch_reviews (Examples.offline Examples.api_down) (PStr "42") (PStr "us") 50
  = (Err ConnectionError,
     [HttpGet "https://itunes.apple.com/us/rss/customerreviews/id=42/sortBy=mostRecent/json" []]).
Proof.
  destruct (fetch_reviews_store_fault (Examples.offline Examples.api_down)
              (PStr "42") (PStr "us") 50) as (Hdown & _).
  apply Hdown. reflexivity.
Defined.

(** *** What each call sends *)

Lemma search_app_trace (w : world) (app_name : string) :
  trace (search_app w app_name) = [HttpGet search_url (search_params app_name)].
Proof.
  unfold search_app, requests_get. unfold bind, emit, lift, ret, raise.
  destruct (http_get w search_url (search_params app_name)) as [|status body];
    [reflexivity|].
  destruct (raise_for_status (Reply status body)) as [[]|x]; [|reflexivity].
  destruct (response_json (Reply status body)) as [b|x]; [|reflexivity].
  destruct (get_method b "results" (PList [])) as [results|x]; [|reflexivity].
  destruct (negb (truthy results)); [reflexivity|].
  destruct (subscript_int results 0) as [hit|x]; [|reflexivity].
  destruct (get_method hit "trackId" PNone) as [tid|x]; [|reflexivity].
  destruct (get_method hit "trackName" PNone) as [nm|x]; reflexivity.
Qed.

(** X3: whatever the store answers, and whether lookup returns or raises,
    it has sent exactly one request: a GET to the search endpoint with the
    name as [term], [entity=software] and [limit=1]. *)
Theorem search_app_sends_one_request (w : world) (app_name : string) :
  trace (search_app w app_name)
  = [HttpGet "https://itunes.apple.com/search"
       [("term", PStr app_name); ("entity", PStr "software"); ("limit", PInt 1)]].
Proof. rewrite search_app_trace. unfold search_url, search_params. reflexivity. Qed.

(** X4: whatever the store answers, and whether the fetch returns or
    raises, it has sent exactly one request: a GET without parameters to
    the review feed of the given country and identifier. *)
Theorem fetch_reviews_sends_one_request (w : world) (app_id country : pyval) (limit : Z) :
  trace (fetch_reviews w app_id country limit)
  = [HttpGet ("https://itunes.apple.com/" +:+ py_str country +:+ "/rss/customerreviews/id="
              +:+ py_str app_id +:+ "/sortBy=mostRecent/json") []].
Proof. rewrite fetch_reviews_trace. unfold rss_url. reflexivity. Qed.

(** *** What the fetch returns *)

Lemma fetch_reviews_returns (w : world) (app_id country : pyval) (limit : Z)
    (rs : list review) :
  outcome (fetch_reviews w app_id country limit) = Ok rs ->
  exists status body entries es,
    http_get w (rss_url country app_id) [] = Reply status (Some body) /\
    feed_entries body limit = Ok entries /\
    py_iter entries = Ok es /\
    reviews_of_entries es = Ok rs.
Proof.
  unfold fetch_reviews, requests_get.
  generalize (rss_url country app_id). intros url.
  unfold bind, emit, lift, ret, raise, outcome.
  destruct (http_get w url []) as [|status body]; [discriminate|].
  destruct (raise_for_status (Reply status body)) as [[]|x]; [|discriminate].
  destruct body as [body|]; cbn [response_json]; [|discriminate].
  destruct (feed_entries body limit) as [entries|x] eqn:He; [|discriminate].
  destruct (py_iter entries) as [es|x] eqn:Hi; [|discriminate].
  destruct (reviews_of_entries es) as [rs'|x] eqn:Hr; cbn [fst]; [|discriminate].
  intros [= <-]. exists status, body, entries, es. repeat split; assumption.
Qed.

Lemma reviews_of_entries_pairs (es : list pyval) (rs : list review) :
  reviews_of_entries es = Ok rs ->
  Forall2 (fun e r => review_of_entry e = Ok r) es rs.
Proof.
  revert rs. induction es as [|e es IH]; intros rs H; cbn [reviews_of_entries] in H.
  - injection H as <-. constructor.
  - destruct (review_of_entry e) as [r|x] eqn:Hr; cbn [rbind] in H; [|discriminate].
    destruct (reviews_of_entries es) as [rs'|x]; cbn [rbind] in H; [|discriminate].
    injection H as <-. constructor; [assumption | apply IH; reflexivity].
Qed.

Lemma slice_from_one_bound {A} (l : list A) (k : Z) :
  (0 <= k)%Z -> (length (slice_list l 1 (k + 1)) <= Z.to_nat k)%nat.
Proof.
  intros Hk. rewrite slice_from_one by assumption. rewrite length_take. lia.
Qed.

Lemma feed_entries_bound (body entries : pyval) (k : Z) (es : list pyval) :
  (0 <= k)%Z ->
  feed_entries body k = Ok entries -> py_iter entries = Ok es ->
  (length es <= Z.to_nat k)%nat.
Proof.
  intros Hk. unfold feed_entries.
  destruct (get_method body "feed" (PDict [])) as [feed|]; cbn [rbind]; [|discriminate].
  destruct (get_method feed "entry" (PList [])) as [entry|]; cbn [rbind]; [|discriminate].
  destruct entry; cbn [py_slice]; try discriminate; intros [= <-]; cbn [py_iter];
    intros [= <-].
  - rewrite length_map, list_ascii_of_string_of_list_ascii.
    apply slice_from_one_bound. assumption.
  - apply slice_from_one_bound. assumption.
Qed.

(** X5: for a limit that is not negative, a fetch that returns never
    returns more records than the limit, whatever the store answered. *)
Theorem fetch_reviews_at_most_limit (w : world) (app_id country : pyval) (limit : Z)
    (rs : list review) :
  (0 <= limit)%Z ->
  outcome (fetch_reviews w app_id country limit) = Ok rs ->
  (Z.of_nat (length rs) <= limit)%Z.
Proof.
  intros Hk Hrun.
  destruct (fetch_reviews_returns _ _ _ _ _ Hrun) as (status & body & entries & es & _ & He & Hi & Hr).
  pose proof (feed_entries_bound _ _ _ _ Hk He Hi) as Hlen.
  apply reviews_of_entries_pairs, Forall2_length in Hr. lia.
Qed.

Lemma fetch_reviews_at_most_limit_witness :
  exists rs,
    outcome (fetch_reviews
               (Examples.store PNone (Examples.feed_body (Examples.banner :: Examples.five_reviews))
                               Examples.api_down)
               (PStr "42") (PStr "us") 3) = Ok rs /\
    (Z.of_nat (length rs) <= 3)%Z.
Proof.
  eexists. split; [vm_compute; reflexivity|].
  apply (fetch_reviews_at_most_limit
           (Examples.store PNone (Examples.feed_body (Examples.banner :: Examples.five_reviews))
                           Examples.api_down)
           (PStr "42") (PStr "us") 3); [lia | vm_compute; reflexivity].
Defined.

(** X6: on a feed whose [entry] is an array, a fetch with a limit that is
    not negative builds its records position by position: record number i
    (from 0) comes from entry number i+1, and i is below the limit.  The
    entry at position 0 gives no record. *)
Theorem fetch_reviews_record_positions (w : world) (app_id country : pyval)
    (limit status : Z) (d feed : list (string * pyval)) (es : list pyval)
    (rs : list review) :
  http_get w (rss_url country app_id) [] = Reply status (Some (PDict d)) ->
  http_success status ->
  dict_lookup "feed" d = Some (PDict feed) ->
  dict_lookup "entry" feed = Some (PList es) ->
  (0 <= limit)%Z ->
  outcome (fetch_reviews w app_id country limit) = Ok rs ->
  forall i r, rs !! i = Some r ->
    (Z.of_nat i < limit)%Z /\
    exists e, es !! S i = Some e /\ review_of_entry e = Ok r.
Proof.
  intros Hget Hok Hfeed Hentry Hk Hrun i r Hi.
  rewrite (fetch_reviews_run _ _ _ _ _ _ Hget Hok) in Hrun.
  unfold outcome in Hrun. cbn [fst] in Hrun.
  unfold feed_entries, get_method in Hrun. rewrite Hfeed in Hrun. cbn [rbind] in Hrun.
  rewrite Hentry in Hrun. cbn [py_slice rbind py_iter] in Hrun.
  rewrite slice_from_one in Hrun by assumption.
  apply reviews_of_entries_pairs in Hrun.
  destruct (Forall2_lookup_r _ _ _ _ _ Hrun Hi) as (e & He & Hconv).
  apply lookup_take_Some in He. destruct He as [He Hlt].
  rewrite lookup_drop in He. split; [lia|].
  exists e. split; assumption.
Qed.

Lemma fetch_reviews_record_positions_witness :
  review_of_entry (Examples.entry "Great" "Love it" (PStr "5"))
  = Ok (Review (PStr "Great") (PStr "Love it") 5).
Proof.
  destruct (fetch_reviews_record_positions
              (Examples.store PNone (Examples.feed_body (Examples.banner :: Examples.five_reviews))
                              Examples.api_down)
              (PStr "42") (PStr "us") 50 200
              [("feed", PDict [("entry", PList (Examples.banner :: Examples.five_reviews))])]
              [("entry", PList (Examples.banner :: Examples.five_reviews))]
              (Examples.banner :: Examples.five_reviews)
              [Review (PStr "Great") (PStr "Love it") 5; Review (PStr "Good") (PStr "Works") 4;
               Review (PStr "Fine") (PStr "It is fine") 3; Review (PStr "Meh") (PStr "Slow") 2;
               Review (PStr "Bad") (PStr "Crashes") 1]
              eq_refl ltac:(unfold http_success; lia) eq_refl eq_refl ltac:(lia) eq_refl
              0%nat (Review (PStr "Great") (PStr "Love it") 5) eq_refl)
    as (_ & e & He & Hconv).
  injection He as <-. exact Hconv.
Defined.

(** X7: with limit 0 the fetch returns the empty list as soon as
    [feed.entry] is an array or a string: no entry is looked at, so no
    malformed entry can make it raise. *)
Theorem fetch_reviews_limit_zero (w : world) (app_id country : pyval) (status : Z)
    (d feed : list (string * pyval)) (entry : pyval) :
  http_get w (rss_url country app_id) [] = Reply status (Some (PDict d)) ->
  http_success status ->
  dict_lookup "feed" d = Some (PDict feed) ->
  dict_lookup "entry" feed = Some entry ->
  is_sliceable entry ->
  fetch_reviews w app_id country 0 = (Ok [], [HttpGet (rss_url country app_id) []]).
Proof.
  intros Hget Hok Hfeed Hentry Hslice.
  rewrite (fetch_reviews_run _ _ _ _ _ _ Hget Hok). f_equal.
  unfold feed_entries, get_method. rewrite Hfeed. cbn [rbind]. rewrite Hentry.
  destruct Hslice as [[l ->] | [s ->]]; cbn [py_slice rbind py_iter];
    rewrite (slice_from_one _ 0) by lia; reflexivity.
Qed.

Lemma fetch_reviews_limit_zero_witness :
  fetch_reviews
    (Examples.store PNone (Examples.feed_body [Examples.banner; PInt 7]) Examples.api_down)
    (PStr "42") (PStr "us") 0
  = (Ok [], [HttpGet "https://itunes.apple.com/us/rss/customerreviews/id=42/sortBy=mostRecent/json" []]).
Proof.
  apply (fetch_reviews_limit_zero _ (PStr "42") (PStr "us") 200
           [("feed", PDict [("entry", PList [Examples.banner; PInt 7])])]
           [("entry", PList [Examples.banner; PInt 7])]
           (PList [Examples.banner; PInt 7])).
  - reflexivity.
  - unfold http_success. lia.
  - reflexivity.
  - reflexivity.
  - left. eexists. reflexivity.
Defined.

(** X8: when [feed.entry] is present but is neither an array nor a string
    (a single object, a number, a boolean, null), the slice fails and the
    fetch raises instead of returning that entry. *)
Theorem fetch_reviews_entry_not_array (w : world) (app_id country : pyval)
    (limit status : Z) (d feed : list (string * pyval)) (entry : pyval) :
  http_get w (rss_url country app_id) [] = Reply status (Some (PDict d)) ->
  http_success status ->
  dict_lookup "feed" d = Some (PDict feed) ->
  dict_lookup "entry" feed = Some entry ->
  ~ is_sliceable entry ->
  exists x, fetch_reviews w app_id country limit
            = (Err x, [HttpGet (rss_url country app_id) []]).
Proof.
  intros Hget Hok Hfeed Hentry Hnot.
  rewrite (fetch_reviews_run _ _ _ _ _ _ Hget Hok).
  unfold feed_entries, get_method. rewrite Hfeed. cbn [rbind]. rewrite Hentry.
  exists TypeError.
  destruct entry; cbn [py_slice rbind]; try reflexivity; exfalso; apply Hnot.
  - right. eexists. reflexivity.
  - left. eexists. reflexivity.
Qed.

Lemma fetch_reviews_entry_not_array_witness :
  exists x,
    fetch_reviews
      (Examples.store PNone
         (PDict [("feed", PDict [("entry", Examples.entry "Great" "Love it" (PStr "5"))])])
         Examples.api_down)
      (PStr "42") (PStr "us") 50
    = (Err x, [HttpGet "https://itunes.apple.com/us/rss/customerreviews/id=42/sortBy=mostRecent/json" []]).
Proof.
  apply (fetch_reviews_entry_not_array _ (PStr "42") (PStr "us") 50 200
           [("feed", PDict [("entry", Examples.entry "Great" "Love it" (PStr "5"))])]
           [("entry", Examples.entry "Great" "Love it" (PStr "5"))]
           (Examples.entry "Great" "Love it" (PStr "5"))).
  - reflexivity.
  - unfold http_success. lia.
  - reflexivity.
  - reflexivity.
  - intros [[l Hl] | [s Hs]]; discriminate.
Defined.

Lemma get_method_not_object (v : pyval) (k : string) (default : pyval) :
  ~ is_object v -> get_method v k default = Err AttributeError.
Proof.
  intros Hnot. destruct v; try reflexivity. exfalso. apply Hnot. eexists. reflexivity.
Qed.

(** X9: when the body of a successful reviews response is not a JSON
    object, or its [feed] is present and is not an object, the fetch raises
    [AttributeError]: the [get] defaults cover absent keys only. *)
Theorem fetch_reviews_not_object (w : world) (app_id country : pyval)
    (limit status : Z) (body : pyval) :
  http_get w (rss_url country app_id) [] = Reply status (Some body) ->
  http_success status ->
  (~ is_object body \/
   exists d feed, body = PDict d /\ dict_lookup "feed" d = Some feed /\ ~ is_object feed) ->
  fetch_reviews w app_id country limit
  = (Err AttributeError, [HttpGet (rss_url country app_id) []]).
Proof.
  intros Hget Hok Hbad.
  rewrite (fetch_reviews_run _ _ _ _ _ _ Hget Hok). f_equal. unfold feed_entries.
  destruct Hbad as [Hbody | (d & feed & -> & Hfeed & Hnot)].
  - rewrite (get_method_not_object _ _ _ Hbody). reflexivity.
  - cbn [get_method]. rewrite Hfeed. cbn [rbind].
    rewrite (get_method_not_object _ _ _ Hnot). reflexivity.
Qed.

Lemma fetch_reviews_not_object_witness :
  fetch_reviews (Examples.store PNone (PDict [("feed", PNone)]) Examples.api_down)
                (PStr "42") (PStr "us") 50
  = (Err AttributeError,
     [HttpGet "https://itunes.apple.com/us/rss/customerreviews/id=42/sortBy=mostRecent/json" []]).
Proof.
  apply (fetch_reviews_not_object _ (PStr "42") (PStr "us") 50 200 (PDict [("feed", PNone)])).
  - reflexivity.
  - unfold http_success. lia.
  - right. exists [("feed", PNone)], PNone. repeat split; try reflexivity.
    intros [d Hd]. discriminate.
Defined.

(** X10: a record is built only from an entry that is an object with
    [title.label] and [content.label], and it carries these two values
    unchanged, whatever their JSON type; its rating is [int] of the rating
    label, 0 standing in for an absent one. *)
Theorem review_of_entry_returns (v : pyval) (r : review) :
  review_of_entry v = Ok r ->
  exists e,
    v = PDict e /\
    entry_label e "title" = Some (title r) /\
    entry_label e "content" = Some (content r) /\
    exists rating_object,
      get_method v "im:rating" (PDict []) = Ok (PDict rating_object) /\
      py_int (default (PInt 0) (dict_lookup "label" rating_object)) = Ok (rating r).
Proof.
  intros H. destruct v as [| | | | | |e]; try discriminate H.
  exists e. rewrite review_of_entry_unfold in H.
  destruct (let* x := subscript (PDict e) "title" in subscript x "label")%py
    as [t|] eqn:Ht; cbn [rbind] in H; [|discriminate].
  destruct (let* x := subscript (PDict e) "content" in subscript x "label")%py
    as [c|] eqn:Hc; cbn [rbind] in H; [|discriminate].
  apply subscript_label_inv in Ht, Hc.
  destruct (get_method (PDict e) "im:rating" (PDict [])) as [ro|] eqn:Hro;
    cbn [rbind] in H; [|discriminate].
  destruct ro as [| | | | | |rd]; try discriminate H. cbn [get_method rbind] in H.
  destruct (py_int match dict_lookup "label" rd with Some x => x | None => PInt 0 end)
    as [n|] eqn:Hn; cbn [rbind] in H; [|discriminate].
  injection H as <-. cbn [title content rating].
  split; [reflexivity | split; [assumption | split; [assumption|]]].
  exists rd. split; [reflexivity|].
  destruct (dict_lookup "label" rd); exact Hn.
Qed.

Lemma review_of_entry_returns_witness :
  exists e,
    Examples.entry "Great" "Love it" (PStr "5") = PDict e /\
    entry_label e "title" = Some (PStr "Great").
Proof.
  destruct (review_of_entry_returns (Examples.entry "Great" "Love it" (PStr "5"))
              (Review (PStr "Great") (PStr "Love it") 5) eq_refl)
    as (e & He & Ht & _).
  exists e. split; assumption.
Defined.

(** *** What lookup returns *)

(** X11: lookup treats every falsy [results] value as no match: an absent
    key, an empty array, and also null, false, 0, an empty string or an
    empty object give [(None, None)], and the handler shows the "No app
    found" message and stops. *)
Theorem search_app_falsy_results (w : world) (app_name : string) (limit status : Z)
    (d : list (string * pyval)) :
  http_get w search_url (search_params app_name) = Reply status (Some (PDict d)) ->
  http_success status ->
  truthy (default (PList []) (dict_lookup "results" d)) = false ->
  search_app w app_name = (Ok (PNone, PNone), [HttpGet search_url (search_params app_name)]) /\
  analyze_button w app_name limit =
    (Ok tt,
     [Ui (StSpinner "Searching for app...");
      HttpGet search_url (search_params app_name);
      Ui (StError ("No app found matching '" +:+ app_name
                   +:+ "'. Please check the name and try again."))]).
Proof.
  intros Hget Hok Hfalsy.
  assert (Hsearch : search_app w app_name
                    = (Ok (PNone, PNone), [HttpGet search_url (search_params app_name)])).
  { rewrite (search_app_run _ _ _ _ Hget Hok). unfold get_method. cbn [rbind].
    destruct (dict_lookup "results" d) as [v|]; cbn [default from_option id] in Hfalsy;
      rewrite Hfalsy; reflexivity. }
  split; [exact Hsearch|].
  exact (analyze_button_no_app w app_name limit _ _ _ Hsearch eq_refl).
Qed.

Lemma search_app_falsy_results_witness :
  search_app (Examples.store (PDict [("resultCount", PInt 0)]) PNone Examples.api_down) "zzz"
  = (Ok (PNone, PNone), [HttpGet search_url (search_params "zzz")]).
Proof.
  destruct (search_app_falsy_results
              (Examples.store (PDict [("resultCount", PInt 0)]) PNone Examples.api_down)
              "zzz" 10 200 [("resultCount", PInt 0)]) as [Hsearch _].
  - reflexivity.
  - unfold http_success. lia.
  - reflexivity.
  - exact Hsearch.
Defined.

(** X12: when the body of a successful search response is not a JSON
    object, or the first element of its [results] array is not an object,
    lookup raises [AttributeError] after its one request. *)
Theorem search_app_not_object (w : world) (app_name : string) (status : Z)
    (body : pyval) :
  http_get w search_url (search_params app_name) = Reply status (Some body) ->
  http_success status ->
  (~ is_object body \/
   exists d first rest,
     body = PDict d /\ dict_lookup "results" d = Some (PList (first :: rest)) /\
     ~ is_object first) ->
  search_app w app_name
  = (Err AttributeError, [HttpGet search_url (search_params app_name)]).
Proof.
  intros Hget Hok Hbad. rewrite (search_app_run _ _ _ _ Hget Hok). f_equal.
  destruct Hbad as [Hbody | (d & first & rest & -> & Hres & Hnot)].
  - rewrite (get_method_not_object _ _ _ Hbody). reflexivity.
  - cbn [get_method]. rewrite Hres. cbn [rbind truthy negb].
    change (subscript_int (PList (first :: rest)) 0) with (Ok first). cbn [rbind].
    rewrite (get_method_not_object _ _ _ Hnot). reflexivity.
Qed.

Lemma search_app_not_object_witness :
  search_app (Examples.store (Examples.search_body [PStr "Testcraft"]) PNone Examples.api_down)
             "Testcraft"
  = (Err AttributeError, [HttpGet search_url (search_params "Testcraft")]).
Proof.
  apply (search_app_not_object _ "Testcraft" 200 (Examples.search_body [PStr "Testcraft"])).
  - reflexivity.
  - unfold http_success. lia.
  - right. exists [("resultCount", PInt 1); ("results", PList [PStr "Testcraft"])],
      (PStr "Testcraft"), []. repeat split; try reflexivity.
    intros [d Hd]. discriminate.
Defined.

(** X13: a first result whose [trackId] is the empty string gives the
    empty identifier, which the handler takes for no match: it shows the
    "No app found" message and sends no feed request, although the store
    returned a result. *)
Theorem analyze_button_empty_track_id (w : world) (app_name : string)
    (limit status : Z) (d hit : list (string * pyval)) (rest : list pyval) :
  http_get w search_url (search_params app_name) = Reply status (Some (PDict d)) ->
  http_success status ->
  dict_lookup "results" d = Some (PList (PDict hit :: rest)) ->
  dict_lookup "trackId" hit = Some (PStr "") ->
  analyze_button w app_name limit =
    (Ok tt,
     [Ui (StSpinner "Searching for app...");
      HttpGet search_url (search_params app_name);
      Ui (StError ("No app found matching '" +:+ app_name
                   +:+ "'. Please check the name and try again."))]).
Proof.
  intros Hget Hok Hres Hid.
  pose proof (search_app_first_result _ _ _ _ _ _ Hget Hok Hres) as Hsearch.
  rewrite Hid in Hsearch. cbn [default from_option id py_str] in Hsearch.
  exact (analyze_button_no_app w app_name limit _ _ _ Hsearch eq_refl).
Qed.

Lemma analyze_button_empty_track_id_witness :
  outcome (analyze_button
             (Examples.store
                (Examples.search_body [PDict [("trackId", PStr ""); ("trackName", PStr "Testcraft")]])
                (Examples.feed_body []) Examples.api_down)
             "Testcraft" 10) = Ok tt.
Proof.
  rewrite (analyze_button_empty_track_id
             (Examples.store
                (Examples.search_body [PDict [("trackId", PStr ""); ("trackName", PStr "Testcraft")]])
                (Examples.feed_body []) Examples.api_down)
             "Testcraft" 10 200
             [("resultCount", PInt 1);
              ("results", PList [PDict [("trackId", PStr ""); ("trackName", PStr "Testcraft")]])]
             [("trackId", PStr ""); ("trackName", PStr "Testcraft")] []
             eq_refl ltac:(unfold http_success; lia) eq_refl eq_refl).
  reflexivity.
Defined.

(** *** Faults and results of the analysis *)

Lemma analyze_first_completion_fault_aux (w : world) (reviews : list review) (x : exn) :
  (let* resp := chat_create w (theme_request (transcript reviews)) in
   first_choice_stripped resp)%py = Err x ->
  analyze_reviews_openai w reviews
  = (Err x, [ChatCreate (theme_request (transcript reviews))]).
Proof.
  intros H. unfold analyze_reviews_openai, chat_completion_create.
  unfold bind, emit, lift, ret.
  destruct (chat_create w (theme_request (transcript reviews))) as [resp|y];
    cbn [rbind] in H.
  - rewrite H. reflexivity.
  - injection H as <-. reflexivity.
Qed.

(** X14: when the theme completion fails, or its response has no choice
    or a first choice without text, the analysis raises that fault after
    the theme request alone: the improvements request is never sent. *)
Theorem analyze_first_completion_fault (w : world) (reviews : list review) (x : exn) :
  (let* resp := chat_create w (theme_request (transcript reviews)) in
   first_choice_stripped resp)%py = Err x ->
  analyze_reviews_openai w reviews
  = (Err x, [ChatCreate (theme_request (transcript reviews))]).
Proof.
  intros H.
  destruct (chat_create w (theme_request (transcript reviews))) as [resp|y] eqn:Hresp;
    cbn [rbind] in H.
  - apply analyze_first_completion_fault_aux. rewrite Hresp. exact H.
  - apply analyze_first_completion_fault_aux. rewrite Hresp. exact H.
Qed.

Lemma analyze_first_completion_fault_witness :
  analyze_reviews_openai (Examples.store PNone PNone Examples.api_down) []
  = (Err OpenAIError, [ChatCreate (theme_request "")]).
Proof.
  apply (analyze_first_completion_fault (Examples.store PNone PNone Examples.api_down) []).
  reflexivity.
Defined.

(** X15: when the theme completion returned text and the improvements
    completion fails, or gives no text, the analysis raises that fault
    after both requests, and the summary already obtained is lost. *)
Theorem analyze_second_completion_fault (w : world) (reviews : list review)
    (resp : chat_response) (summary : string) (x : exn) :
  chat_create w (theme_request (transcript reviews)) = Ok resp ->
  first_choice_stripped resp = Ok summary ->
  (let* imp_resp := chat_create w (improve_request (transcript reviews)) in
   first_choice_stripped imp_resp)%py = Err x ->
  analyze_reviews_openai w reviews
  = (Err x, [ChatCreate (theme_request (transcript reviews));
             ChatCreate (improve_request (transcript reviews))]).
Proof.
  intros H1 Hs H2. rewrite (analyze_run _ _ _ _ H1 Hs). f_equal.
  destruct (chat_create w (improve_request (transcript reviews))) as [r2|y];
    cbn [rbind] in *.
  - rewrite H2. reflexivity.
  - injection H2 as <-. reflexivity.
Qed.

Lemma analyze_second_completion_fault_witness :
  analyze_reviews_openai
    (Examples.store PNone PNone (Examples.api_answers_once "fine")) []
  = (Err OpenAIError, [ChatCreate (theme_request ""); ChatCreate (improve_request "")]).
Proof.
  apply (analyze_second_completion_fault
           (Examples.store PNone PNone (Examples.api_answers_once "fine")) []
           (ChatResponse [PStr "fine"]) "fine"); reflexivity.
Defined.

Lemma drop_while_head {A} (p : A -> bool) (l : list A) (x : A) (l' : list A) :
  drop_while p l = x :: l' -> p x = false.
Proof.
  induction l as [|a l IH]; cbn [drop_while]; [discriminate|].
  destruct (p a) eqn:Ha; [exact IH|]. intros [= <- _]. exact Ha.
Qed.

Lemma drop_while_suffix {A} (p : A -> bool) (l : list A) :
  exists pre, l = pre ++ drop_while p l.
Proof.
  induction l as [|a l [pre IH]]; cbn [drop_while]; [exists []; reflexivity|].
  destruct (p a); [|exists []; reflexivity].
  exists (a :: pre). cbn [app]. f_equal. exact IH.
Qed.

(** What [strip_list] leaves starts and ends outside [p]. *)
Lemma strip_list_ends {A} (p : A -> bool) (l : list A) (x : A) (l' : list A) :
  strip_list p l = x :: l' -> p x = false /\ p (List.last l' x) = false.
Proof.
  unfold strip_list. intros H.
  assert (Hn : drop_while p (rev (drop_while p l)) = rev l' ++ [x]).
  { rewrite <- (rev_involutive (drop_while p (rev (drop_while p l)))), H. reflexivity. }
  split.
  - destruct (drop_while_suffix p (rev (drop_while p l))) as [pre Hpre].
    rewrite Hn in Hpre. apply (f_equal (@rev A)) in Hpre.
    rewrite rev_involutive, app_assoc, rev_app_distr in Hpre. cbn [rev app] in Hpre.
    exact (drop_while_head p l x _ Hpre).
  - destruct l' as [|y l'] using rev_ind.
    + cbn [rev app] in Hn. cbn [List.last]. exact (drop_while_head p _ x _ Hn).
    + rewrite last_last. rewrite rev_app_distr in Hn. cbn [rev app] in Hn.
      exact (drop_while_head p _ y _ Hn).
Qed.

Lemma py_strip_trimmed (s : string) : trimmed (py_strip s).
Proof.
  unfold trimmed, py_strip. rewrite list_ascii_of_string_of_list_ascii.
  destruct (strip_list is_space (list_ascii_of_string s)) as [|c cs] eqn:H; [exact I|].
  exact (strip_list_ends _ _ _ _ H).
Qed.

(** X16: the two texts the analysis returns have no whitespace at either
    end, whatever the completion API put around them. *)
Theorem analyze_results_trimmed (w : world) (reviews : list review)
    (summary improvements : string) :
  outcome (analyze_reviews_openai w reviews) = Ok (summary, improvements) ->
  trimmed summary /\ trimmed improvements.
Proof.
  unfold analyze_reviews_openai, chat_completion_create.
  unfold bind, emit, lift, ret, outcome.
  destruct (chat_create w (theme_request (transcript reviews))) as [r1|]; [|discriminate].
  unfold first_choice_stripped at 1.
  destruct (choices r1) as [|[| | | |s1| |] ?]; try discriminate.
  destruct (chat_create w (improve_request (transcript reviews))) as [r2|]; [|discriminate].
  unfold first_choice_stripped at 1.
  destruct (choices r2) as [|[| | | |s2| |] ?]; try discriminate.
  cbn [fst]. intros [= <- <-]. split; apply py_strip_trimmed.
Qed.

Lemma analyze_results_trimmed_witness :
  trimmed "fine" /\ trimmed "fine".
Proof.
  apply (analyze_results_trimmed
           (Examples.store PNone PNone (Examples.api_answers "  fine  ")) []).
  reflexivity.
Defined.

(** *** How the transcript grows *)

Lemma string_app_assoc (a b c : string) : (a +:+ b) +:+ c = a +:+ b +:+ c.
Proof.
  induction a as [|x a IH]; [reflexivity|].
  change (String x ((a +:+ b) +:+ c) = String x (a +:+ b +:+ c)). f_equal. exact IH.
Qed.

Lemma concat_snoc (sep : string) (l : list string) (x : string) :
  l <> [] -> String.concat sep (l ++ [x]) = String.concat sep l +:+ sep +:+ x.
Proof.
  induction l as [|a l IH]; [congruence|]. intros _.
  destruct l as [|b l].
  - reflexivity.
  - change (String.concat sep ((a :: b :: l) ++ [x]))
      with (a +:+ sep +:+ String.concat sep ((b :: l) ++ [x])).
    rewrite IH by discriminate.
    change (String.concat sep (a :: b :: l)) with (a +:+ sep +:+ String.concat sep (b :: l)).
    rewrite !string_app_assoc. reflexivity.
Qed.

(** X17: a review added at the end of a non-empty list leaves the
    transcript of the others as it is and adds, after a blank line, its own
    line, numbered one more than the number of reviews before it. *)
Theorem transcript_append_review (reviews : list review) (r : review) :
  reviews <> [] ->
  transcript (reviews ++ [r])
  = transcript reviews +:+ newline +:+ newline
    +:+ pretty (S (length reviews)) +:+ ". [" +:+ pretty (rating r) +:+ "/5] "
    +:+ py_str (title r) +:+ " - " +:+ py_str (content r).
Proof.
  intros Hne. unfold transcript. rewrite imap_app. cbn [imap].
  rewrite concat_snoc by (destruct reviews; [congruence | discriminate]).
  rewrite Nat.add_0_r, review_line_numbered. unfold numbered_line.
  rewrite !string_app_assoc. reflexivity.
Qed.

Lemma transcript_append_review_witness :
  transcript [Review (PStr "Great") (PStr "Love it") 5; Review (PStr "Bad") (PStr "Crashes") 1]
  = "1. [5/5] Great - Love it" +:+ newline +:+ newline +:+ "2. [1/5] Bad - Crashes".
Proof.
  pose proof (transcript_append_review [Review (PStr "Great") (PStr "Love it") 5]
                (Review (PStr "Bad") (PStr "Crashes") 1) ltac:(discriminate)) as H.
  vm_compute in H. vm_compute. exact H.
Defined.

(** *** How the handler strings the steps together *)

Lemma search_app_pair (w : world) (app_name : string) :
  search_app w app_name
  = (outcome (search_app w app_name), [HttpGet search_url (search_params app_name)]).
Proof.
  rewrite <- (search_app_trace w app_name).
  destruct (search_app w app_name). reflexivity.
Qed.

(** The handler once lookup has returned a truthy identifier. *)
Lemma analyze_button_after_search (w : world) (app_name : string) (limit : Z)
    (app_id found_name : pyval) :
  outcome (search_app w app_name) = Ok (app_id, found_name) ->
  truthy app_id = true ->
  analyze_button w app_name limit =
    let reached :=
      [searching; HttpGet search_url (search_params app_name);
       Ui (StSuccess ("Found " +:+ py_str found_name +:+ " (ID: " +:+ py_str app_id +:+ ")"));
       fetching; HttpGet (rss_url (PStr "us") app_id) []] in
    match outcome (fetch_reviews w app_id (PStr "us") limit) with
    | Err x => (Err x, reached)
    | Ok reviews =>
        let shown :=
          reached ++
          [Ui (StWrite ("Fetched " +:+ pretty (length reviews) +:+ " reviews."));
           Ui (StSpinner "Analyzing with OpenAI...")] ++
          trace (analyze_reviews_openai w reviews) in
        match outcome (analyze_reviews_openai w reviews) with
        | Err x => (Err x, shown)
        | Ok (summary, improvements) =>
            (Ok tt,
             shown ++
             [Ui (StSubheader " Themes & Sentiment Summary"); Ui (StMarkdown summary);
              Ui (StSubheader " Recommended Improvements"); Ui (StMarkdown improvements)])
        end
    end.
Proof.
  intros Hsearch Htrue.
  pose proof (search_app_trace w app_name) as Hst.
  pose proof (fetch_reviews_trace w app_id (PStr "us") limit) as Hft.
  unfold analyze_button.
  destruct (search_app w app_name) as [rs ts].
  unfold outcome, trace in Hsearch, Hst. cbn [fst snd] in Hsearch, Hst. subst rs ts.
  unfold emit at 1. rewrite bind_ok, bind_ok. cbv beta iota. rewrite Htrue. cbn [negb].
  unfold emit at 1. rewrite bind_ok. unfold emit at 1. rewrite bind_ok.
  destruct (fetch_reviews w app_id (PStr "us") limit) as [rf tf].
  unfold trace in Hft. cbn [snd] in Hft. subst tf.
  unfold outcome at 1. cbn [fst]. cbv zeta.
  destruct rf as [reviews|x].
  - rewrite bind_ok. unfold emit at 1. rewrite bind_ok. unfold emit at 1. rewrite bind_ok.
    unfold outcome, trace.
    destruct (analyze_reviews_openai w reviews) as [[[summary improvements]|x] ta].
    + rewrite bind_ok. unfold emit, bind, searching, fetching. cbn [fst snd app].
      rewrite <- ?app_assoc. reflexivity.
    + rewrite bind_err. unfold searching, fetching. cbn [fst snd app]. reflexivity.
  - rewrite bind_err. unfold searching, fetching. cbn [fst snd app]. reflexivity.
Qed.

(** X18: when lookup raises, the handler raises the same fault at once:
    after the search request nothing is displayed (no "No app found"
    message) and no further request is sent. *)
Theorem analyze_button_search_fault (w : world) (app_name : string) (limit : Z)
    (x : exn) :
  outcome (search_app w app_name) = Err x ->
  analyze_button w app_name limit =
    (Err x,
     [Ui (StSpinner "Searching for app..."); HttpGet search_url (search_params app_name)]).
Proof.
  intros Hsearch. unfold analyze_button.
  rewrite (search_app_pair w app_name), Hsearch.
  unfold emit at 1. rewrite bind_ok, bind_err. reflexivity.
Qed.

Lemma analyze_button_search_fault_witness :
  analyze_button (Examples.offline Examples.api_down) "Testcraft" 10
  = (Err ConnectionError,
     [Ui (StSpinner "Searching for app..."); HttpGet search_url (search_params "Testcraft")]).
Proof.
  apply (analyze_button_search_fault (Examples.offline Examples.api_down) "Testcraft" 10).
  reflexivity.
Defined.

(** X19: when lookup found an identifier and the fetch raises, the
    handler raises the same fault right after the feed request: no review
    count is displayed and no completion request is sent. *)
Theorem analyze_button_fetch_fault (w : world) (app_name : string) (limit : Z)
    (app_id found_name : pyval) (x : exn) :
  outcome (search_app w app_name) = Ok (app_id, found_name) ->
  truthy app_id = true ->
  outcome (fetch_reviews w app_id (PStr "us") limit) = Err x ->
  analyze_button w app_name limit =
    (Err x,
     [Ui (StSpinner "Searching for app...");
      HttpGet search_url (search_params app_name);
      Ui (StSuccess ("Found " +:+ py_str found_name +:+ " (ID: " +:+ py_str app_id +:+ ")"));
      Ui (StSpinner "Fetching reviews...");
      HttpGet (rss_url (PStr "us") app_id) []]).
Proof.
  intros Hsearch Htrue Hfetch.
  rewrite (analyze_button_after_search _ _ _ _ _ Hsearch Htrue). cbv zeta.
  rewrite Hfetch. reflexivity.
Qed.

Lemma analyze_button_fetch_fault_witness :
  outcome (analyze_button
             (Examples.store Examples.one_match (PDict [("feed", PNone)]) Examples.api_down)
             "Testcraft" 10)
  = Err AttributeError.
Proof.
  rewrite (analyze_button_fetch_fault
             (Examples.store Examples.one_match (PDict [("feed", PNone)]) Examples.api_down)
             "Testcraft" 10 (PStr "123456789") (PStr "Testcraft") AttributeError
             eq_refl eq_refl eq_refl).
  reflexivity.
Defined.

(** X20: when the reviews were fetched and the analysis raises, the
    handler raises the same fault: the review count has been displayed and
    the completion requests made so far were sent, but neither heading nor
    result text is shown. *)
Theorem analyze_button_analysis_fault (w : world) (app_name : string) (limit : Z)
    (app_id found_name : pyval) (reviews : list review) (x : exn) :
  outcome (search_app w app_name) = Ok (app_id, found_name) ->
  truthy app_id = true ->
  outcome (fetch_reviews w app_id (PStr "us") limit) = Ok reviews ->
  outcome (analyze_reviews_openai w reviews) = Err x ->
  analyze_button w app_name limit =
    (Err x,
     [Ui (StSpinner "Searching for app...");
      HttpGet search_url (search_params app_name);
      Ui (StSuccess ("Found " +:+ py_str found_name +:+ " (ID: " +:+ py_str app_id +:+ ")"));
      Ui (StSpinner "Fetching reviews...");
      HttpGet (rss_url (PStr "us") app_id) [];
      Ui (StWrite ("Fetched " +:+ pretty (length reviews) +:+ " reviews."));
      Ui (StSpinner "Analyzing with OpenAI...")]
     ++ trace (analyze_reviews_openai w reviews)).
Proof.
  intros Hsearch Htrue Hfetch Hfault.
  rewrite (analyze_button_after_search _ _ _ _ _ Hsearch Htrue). cbv zeta.
  rewrite Hfetch, Hfault. reflexivity.
Qed.

Lemma analyze_button_analysis_fault_witness :
  outcome (analyze_button
             (Examples.store Examples.one_match (Examples.feed_body [Examples.banner])
                             Examples.api_down)
             "Testcraft" 10)
  = Err OpenAIError.
Proof.
  rewrite (analyze_button_analysis_fault
             (Examples.store Examples.one_match (Examples.feed_body [Examples.banner])
                             Examples.api_down)
             "Testcraft" 10 (PStr "123456789") (PStr "Testcraft") [] OpenAIError
             eq_refl eq_refl eq_refl eq_refl).
  reflexivity.
Defined.

Lemma analyze_returns_trace (w : world) (reviews : list review) (res : string * string) :
  outcome (analyze_reviews_openai w reviews) = Ok res ->
  trace (analyze_reviews_openai w reviews)
  = [ChatCreate (theme_request (transcript reviews));
     ChatCreate (improve_request (transcript reviews))].
Proof.
  intros H.
  destruct (chat_create w (theme_request (transcript reviews))) as [r1|x] eqn:H1.
  - destruct (first_choice_stripped r1) as [s|x] eqn:Hs.
    + rewrite (analyze_run _ _ _ _ H1 Hs). reflexivity.
    + rewrite (analyze_first_completion_fault_aux w reviews x) in H; [discriminate|].
      rewrite H1. exact Hs.
  - rewrite (analyze_first_completion_fault_aux w reviews x) in H; [discriminate|].
    rewrite H1. reflexivity.
Qed.

(** X21: when lookup, fetch and analysis all return, the handler shows,
    in this order: the name and identifier found, the number of records
    the fetch returned, and the two texts under their headings.  Between
    them it sends the feed request for that identifier in the "us" store
    and the two completion requests built from exactly those records. *)
Theorem analyze_button_full_run (w : world) (app_name : string) (limit : Z)
    (app_id found_name : pyval) (reviews : list review) (summary improvements : string) :
  outcome (search_app w app_name) = Ok (app_id, found_name) ->
  truthy app_id = true ->
  outcome (fetch_reviews w app_id (PStr "us") limit) = Ok reviews ->
  outcome (analyze_reviews_openai w reviews) = Ok (summary, improvements) ->
  analyze_button w app_name limit =
    (Ok tt,
     [Ui (StSpinner "Searching for app...");
      HttpGet search_url (search_params app_name);
      Ui (StSuccess ("Found " +:+ py_str found_name +:+ " (ID: " +:+ py_str app_id +:+ ")"));
      Ui (StSpinner "Fetching reviews...");
      HttpGet ("https://itunes.apple.com/us/rss/customerreviews/id=" +:+ py_str app_id
               +:+ "/sortBy=mostRecent/json") [];
      Ui (StWrite ("Fetched " +:+ pretty (length reviews) +:+ " reviews."));
      Ui (StSpinner "Analyzing with OpenAI...");
      ChatCreate (theme_request (transcript reviews));
      ChatCreate (improve_request (transcript reviews));
      Ui (StSubheader " Themes & Sentiment Summary");
      Ui (StMarkdown summary);
      Ui (StSubheader " Recommended Improvements");
      Ui (StMarkdown improvements)]).
Proof.
  intros Hsearch Htrue Hfetch Hres.
  rewrite (analyze_button_after_search _ _ _ _ _ Hsearch Htrue). cbv zeta.
  rewrite Hfetch, Hres, (analyze_returns_trace _ _ _ Hres). reflexivity.
Qed.

Lemma analyze_button_full_run_witness :
  outcome (analyze_button
             (Examples.store Examples.one_match
                (Examples.feed_body (Examples.banner :: Examples.five_reviews))
                (Examples.api_answers "fine"))
             "Testcraft" 2)
  = Ok tt.
Proof.
  rewrite (analyze_button_full_run
             (Examples.store Examples.one_match
                (Examples.feed_body (Examples.banner :: Examples.five_reviews))
                (Examples.api_answers "fine"))
             "Testcraft" 2 (PStr "123456789") (PStr "Testcraft")
             [Review (PStr "Great") (PStr "Love it") 5; Review (PStr "Good") (PStr "Works") 4]
             "fine" "fine" eq_refl eq_refl eq_refl eq_refl).
  reflexivity.
Defined.

(** *** The script *)

(** X22: a run of the script calls the store or the completion API only
    if the API key is set to a non-empty value and the button was clicked;
    without the key it shows the message about the variable and stops. *)
Theorem script_outside_calls_need_key_and_click (w : world) (i : Script.inputs) :
  (forall ev, In ev (snd (Script.script w i)) -> Script.is_outside_call ev ->
     (exists key, Script.env_key i = Some key /\ key <> "") /\
     Script.button_clicked i = true) /\
  (Script.env_key i = None \/ Script.env_key i = Some "" ->
   Script.script w i
   = (Ok tt, [Script.Step (Ui (StError "Please set the OPENAI_API_KEY environment variable."))])).
Proof.
  unfold Script.script. split.
  - intros ev Hin Hcall.
    destruct (Script.env_key i) as [key|] eqn:Hkey; cbn [Script.getenv_value truthy negb] in Hin.
    + destruct (String.eqb key "") eqn:Hempty; cbn [negb] in Hin.
      * destruct Hin as [<- | []].
        destruct Hcall as [(url & params & H) | (req & H)]; discriminate.
      * destruct (Script.button_clicked i).
        -- split; [|reflexivity]. exists key. split; [reflexivity|].
           intros ->. discriminate.
        -- unfold Script.page in Hin. cbn [snd In] in Hin.
           repeat (destruct Hin as [<- | Hin];
                   [destruct Hcall as [(url & params & H) | (req & H)]; discriminate|]).
           destruct Hin.
    + destruct Hin as [<- | []].
      destruct Hcall as [(url & params & H) | (req & H)]; discriminate.
  - intros [-> | ->]; reflexivity.
Qed.

Lemma script_outside_calls_need_key_and_click_witness :
  Script.script (Examples.offline Examples.api_down)
                (Script.Inputs None "Testcraft" 50 true)
  = (Ok tt, [Script.Step (Ui (StError "Please set the OPENAI_API_KEY environment variable."))]).
Proof.
  destruct (script_outside_calls_need_key_and_click
              (Examples.offline Examples.api_down)
              (Script.Inputs None "Testcraft" 50 true)) as [_ Hstop].
  apply Hstop. left. reflexivity.
Defined.

(** *** One bad rating *)

(** X23: an entry the fetch goes through whose rating label is a string
    that is not an integer literal makes the whole fetch raise: the
    records of the other entries are not returned. *)
Theorem fetch_reviews_bad_rating_loses_all (w : world) (app_id country : pyval)
    (limit status : Z) (d feed e : list (string * pyval)) (es : list pyval) (s : string) :
  http_get w (rss_url country app_id) [] = Reply status (Some (PDict d)) ->
  http_success status ->
  dict_lookup "feed" d = Some (PDict feed) ->
  dict_lookup "entry" feed = Some (PList es) ->
  In (PDict e) (slice_list es 1 (limit + 1)) ->
  entry_label e "im:rating" = Some (PStr s) ->
  parse_int s = None ->
  exists x, fetch_reviews w app_id country limit
            = (Err x, [HttpGet (rss_url country app_id) []]).
Proof.
  intros Hget Hok Hfeed Hentry Hin Hlabel Hbad.
  rewrite (fetch_reviews_run _ _ _ _ _ _ Hget Hok).
  unfold feed_entries, get_method. rewrite Hfeed. cbn [rbind]. rewrite Hentry.
  cbn [py_slice rbind py_iter].
  destruct (reviews_of_entries (slice_list es 1 (limit + 1))) as [rs|x] eqn:Hrs;
    [|exists x; reflexivity].
  exfalso. apply reviews_of_entries_inv in Hrs.
  rewrite Forall_forall in Hrs. apply list_elem_of_In in Hin.
  pose proof (Hrs _ Hin) as Hconv.
  destruct (converts_has_labels e Hconv) as [Ht Hc]. unfold has_label in Ht, Hc.
  destruct (entry_label e "title") as [t|] eqn:Et; [|congruence].
  destruct (entry_label e "content") as [c|] eqn:Ec; [|congruence].
  destruct Hconv as [r Hr]. rewrite (review_of_entry_rating e t c Et Ec) in Hr.
  unfold entry_label in Hlabel. unfold get_method in Hr.
  destruct (dict_lookup "im:rating" e) as [[| | | | |l|rd]|]; try discriminate.
  cbn [rbind] in Hr. rewrite Hlabel in Hr. cbn [rbind py_int] in Hr.
  rewrite Hbad in Hr. discriminate.
Qed.

Lemma fetch_reviews_bad_rating_loses_all_witness :
  exists x,
    fetch_reviews
      (Examples.store PNone
         (Examples.feed_body
            [Examples.banner; Examples.entry "Great" "Love it" (PStr "5");
             Examples.entry "Bad" "Crashes" (PStr "one star")])
         Examples.api_down)
      (PStr "42") (PStr "us") 50
    = (Err x, [HttpGet "https://itunes.apple.com/us/rss/customerreviews/id=42/sortBy=mostRecent/json" []]).
Proof.
  apply (fetch_reviews_bad_rating_loses_all _ (PStr "42") (PStr "us") 50 200
           [("feed", PDict [("entry", PList [Examples.banner;
                                             Examples.entry "Great" "Love it" (PStr "5");
                                             Examples.entry "Bad" "Crashes" (PStr "one star")])])]
           [("entry", PList [Examples.banner;
                             Examples.entry "Great" "Love it" (PStr "5");
                             Examples.entry "Bad" "Crashes" (PStr "one star")])]
           [("title", Examples.label (PStr "Bad")); ("content", Examples.label (PStr "Crashes"));
            ("im:rating", Examples.label (PStr "one star"))]
           [Examples.banner; Examples.entry "Great" "Love it" (PStr "5");
            Examples.entry "Bad" "Crashes" (PStr "one star")]
           "one star").
  - reflexivity.
  - unfold http_success. lia.
  - reflexivity.
  - reflexivity.
  - right. left. reflexivity.
  - reflexivity.
  - reflexivity.
Defined.
